(** * traj-runner: the mission execution and telemetry-capture engine

    A shallow embedding of [CargarEjecutar.py]: the mission loader at the
    head of [run], the retrying [attempt_takeoff], the two telemetry loops
    [log_gps] and [log_odometry] with the landing-detection counters, and
    the race at the tail of [run].

    Conventions of the embedding.
    - A Python [float] is modelled by an exact rational ([Q]); a Python
      [int] by [Z]. Binary64 rounding error is outside the model.
    - A Python object that can be [None], a number or a container is a
      [pyval]; an operation that can raise returns a [result].
    - Exceptions are the subclasses of [Exception] the code can meet;
      external task cancellation ([CancelledError]) is not an input of
      the model. *)

From Stdlib Require Import ZArith QArith Qround Qabs String List Bool Lia Lqa.
From Stdlib Require Import Sorted.
Import ListNotations.

Open Scope string_scope.
Open Scope list_scope.
Open Scope Z_scope.
Open Scope Q_scope.

(** ** Python values and exceptions *)

Module Py.

Inductive exn : Type :=
| FileNotFoundError
| JSONDecodeError
| KeyError
| IndexError
| TypeError
| AttributeError
| RuntimeError
| ValueError
| ActionError.

Inductive result (A : Type) : Type :=
| Ok (x : A)
| Raise (e : exn).

Arguments Ok {A} x.
Arguments Raise {A} e.

Definition bind {A B : Type} (m : result A) (k : A -> result B) : result B :=
  match m with
  | Ok x => k x
  | Raise e => Raise e
  end.

#[local] Set Warnings "-register-all".

Inductive pyval : Type :=
| PNone
| PBool (b : bool)
| PNum (q : Q)
| PStr (s : string)
| PList (l : list pyval)
| PDict (d : list (string * pyval)).

(** Truth value of an object, as tested by [if x] and [x and y]. *)
Definition truthy (v : pyval) : bool :=
  match v with
  | PNone => false
  | PBool b => b
  | PNum q => negb (Qeq_bool q 0)
  | PStr s => negb (String.eqb s "")
  | PList l => match l with [] => false | _ => true end
  | PDict d => match d with [] => false | _ => true end
  end.

Definition is_not_none (v : pyval) : bool :=
  match v with
  | PNone => false
  | _ => true
  end.

Fixpoint lookup (k : string) (d : list (string * pyval)) : option pyval :=
  match d with
  | [] => None
  | (k', v) :: d' => if String.eqb k k' then Some v else lookup k d'
  end.

(** [v[k]] with a string key. *)
Definition getitem_str (v : pyval) (k : string) : result pyval :=
  match v with
  | PDict d => match lookup k d with
               | Some x => Ok x
               | None => Raise KeyError
               end
  | _ => Raise TypeError
  end.

(** [v.get(k, default)]. *)
Definition dict_get (v : pyval) (k : string) (default : pyval) : result pyval :=
  match v with
  | PDict d => match lookup k d with
               | Some x => Ok x
               | None => Ok default
               end
  | _ => Raise AttributeError
  end.

Definition char_str (ch : Ascii.ascii) : pyval := PStr (String ch EmptyString).

(** [v[i]] with a non-negative integer index. *)
Definition getitem_int (v : pyval) (i : nat) : result pyval :=
  match v with
  | PList l => match nth_error l i with
               | Some x => Ok x
               | None => Raise IndexError
               end
  | PStr s => match String.get i s with
              | Some ch => Ok (char_str ch)
              | None => Raise IndexError
              end
  | PDict _ => Raise KeyError
  | _ => Raise TypeError
  end.

(** [v[-1]]. *)
Definition getitem_last (v : pyval) : result pyval :=
  match v with
  | PList l => match l with
               | [] => Raise IndexError
               | x :: l' => Ok (last l' x)
               end
  | PStr s => match String.get (Nat.pred (String.length s)) s with
              | Some ch => Ok (char_str ch)
              | None => Raise IndexError
              end
  | PDict _ => Raise KeyError
  | _ => Raise TypeError
  end.

(** The numeric value of an object in arithmetic ([bool] is an [int]). *)
Definition as_num (v : pyval) : result Q :=
  match v with
  | PNum q => Ok q
  | PBool b => Ok (if b then 1 else 0)
  | _ => Raise TypeError
  end.

(** [v == n] for an integer literal [n]. *)
Definition eq_int (v : pyval) (n : Z) : bool :=
  match v with
  | PNum q => Qeq_bool q (inject_Z n)
  | PBool b => Qeq_bool (if b then 1 else 0) (inject_Z n)
  | _ => false
  end.

(** [x - y]. *)
Definition sub (x y : pyval) : result pyval :=
  bind (as_num x) (fun p =>
  bind (as_num y) (fun q =>
  Ok (PNum (p - q)))).

(** [abs(x)]. *)
Definition abs (x : pyval) : result pyval :=
  bind (as_num x) (fun p => Ok (PNum (Qabs p))).

Definition Qlt_bool (x y : Q) : bool :=
  match Qcompare x y with
  | Lt => true
  | _ => false
  end.

(** [x < y] for a float literal [y]. *)
Definition lt_num (x : pyval) (y : Q) : result bool :=
  bind (as_num x) (fun p => Ok (Qlt_bool p y)).

(** Round-half-to-even to an integer, the rule of [round]. *)
Definition round_half_even (x : Q) : Z :=
  let f := Qfloor x in
  match Qcompare (x - inject_Z f) (1 # 2) with
  | Lt => f
  | Gt => (f + 1)%Z
  | Eq => if Z.even f then f else (f + 1)%Z
  end.

(** [round(x, ndigits)] on a float. *)
Definition round (x : Q) (ndigits : nat) : Q :=
  let scale := inject_Z (10 ^ Z.of_nat ndigits) in
  inject_Z (round_half_even (x * scale)) / scale.

(** [round(v, ndigits)] on an object: [None] has no [__round__]. *)
Definition round_val (v : pyval) (ndigits : nat) : result Q :=
  bind (as_num v) (fun q => Ok (round q ndigits)).

End Py.

Import Py.

Notation "x <- m ;; k" := (bind m (fun x => k))
  (at level 61, m at next level, right associativity).

(** ** Module-level variables of the script *)

Record globals : Type := mkGlobals {
  current_lat : pyval;
  current_lon : pyval;
  current_alt : pyval;
  last_lat : pyval;
  last_lon : pyval;
  last_alt : pyval;
  inic_alt : pyval
}.

Definition initial_globals : globals :=
  mkGlobals PNone PNone PNone PNone PNone PNone PNone.

Definition set_expected (g : globals) (lat lon alt base : pyval) : globals :=
  mkGlobals (current_lat g) (current_lon g) (current_alt g) lat lon alt base.

(** ** Mission loader (head of [run]) *)

Module Loader.

(** What [open(mission_path)] followed by [json.load] meets. *)
Inductive plan_file : Type :=
| Missing
| Malformed
| Parsed (mission_json : pyval).

Definition read_plan (f : plan_file) : result pyval :=
  match f with
  | Missing => Raise FileNotFoundError
  | Malformed => Raise JSONDecodeError
  | Parsed j => Ok j
  end.

Definition rtl_command : Z := 20.

(** Lines 44-58: derive the expected end position and the base altitude. *)
Definition expected_end (mission_json : pyval) (g : globals) : result globals :=
  mission <- getitem_str mission_json "mission" ;;
  mission_items <- getitem_str mission "items" ;;
  planned_home_position <- dict_get mission "plannedHomePosition" PNone ;;
  last_wp <- (if truthy mission_items then getitem_last mission_items
              else Ok PNone) ;;
  if truthy last_wp && truthy planned_home_position then
    command <- getitem_str last_wp "command" ;;
    if eq_int command rtl_command then
      lat <- getitem_int planned_home_position 0 ;;
      lon <- getitem_int planned_home_position 1 ;;
      alt <- getitem_int planned_home_position 2 ;;
      Ok (set_expected g lat lon alt (PNum 0))
    else
      params4 <- getitem_str last_wp "params" ;;
      lat <- getitem_int params4 4 ;;
      params5 <- getitem_str last_wp "params" ;;
      lon <- getitem_int params5 5 ;;
      params6 <- getitem_str last_wp "params" ;;
      alt <- getitem_int params6 6 ;;
      base <- getitem_int planned_home_position 2 ;;
      Ok (set_expected g lat lon alt base)
  else Ok g.

Definition load (f : plan_file) (g : globals) : result globals :=
  mission_json <- read_plan f ;;
  expected_end mission_json g.

(** A plan document with the given items and optional home position. *)
Definition plan_doc (items : list pyval) (home : option pyval) : pyval :=
  PDict [("fileType", PStr "Plan");
         ("mission",
          PDict ([("items", PList items)] ++
                 match home with
                 | Some h => [("plannedHomePosition", h)]
                 | None => []
                 end))].

Definition waypoint (command : Z) (params : list pyval) : pyval :=
  PDict [("command", PNum (inject_Z command)); ("params", PList params)].

Definition home_position (lat lon alt : Q) : pyval :=
  PList [PNum lat; PNum lon; PNum alt].

(** [extract_home_position] of the orchestrator ([run.py]), run on the
    same file before the simulator and this script are started. *)
Definition extract_home_position (f : plan_file)
  : result (pyval * pyval * pyval) :=
  mission_json <- read_plan f ;;
  mission <- getitem_str mission_json "mission" ;;
  planned_home_position <- dict_get mission "plannedHomePosition" PNone ;;
  if is_not_none planned_home_position then
    lat <- getitem_int planned_home_position 0 ;;
    lon <- getitem_int planned_home_position 1 ;;
    alt <- getitem_int planned_home_position 2 ;;
    Ok (lat, lon, alt)
  else Raise ValueError.

End Loader.

(** ** Takeoff sequencer ([attempt_takeoff]) *)

Module Takeoff.

(** What the vehicle link does during one attempt: the outcome of
    [arm()], of [start_mission()], and the items of the [in_air()] stream,
    each paired with the value of [time.time() - start_time] read when the
    item is examined. A stream that runs out of items has ended. *)
Record attempt_env : Type := mkAttempt {
  arm : option exn;
  start_mission : option exn;
  in_air : list (bool * Q)
}.

Inductive event : Type :=
| EvArm
| EvStartMission
| EvInAir (flag : bool)
| EvTimeout
| EvCaught (e : exn)
| EvSleep (seconds : Z).

Inductive attempt_result : Type :=
| Airborne
| TimedOut
| StreamEnded
| Errored (e : exn).

Definition max_attempts : nat := 5.

(** Lines 117-123: the [async for] over the airborne stream. *)
Fixpoint poll (items : list (bool * Q)) : attempt_result * list event :=
  match items with
  | [] => (StreamEnded, [])
  | (flag, elapsed) :: rest =>
      if flag then (Airborne, [EvInAir true])
      else if Qlt_bool 1 elapsed then (TimedOut, [EvInAir false; EvTimeout])
      else let (r, t) := poll rest in (r, EvInAir false :: t)
  end.

(** Lines 106-126: the body of the [try] with its [except Exception]. *)
Definition attempt_once (e : attempt_env) : attempt_result * list event :=
  match arm e with
  | Some x => (Errored x, [EvArm; EvCaught x])
  | None =>
      match start_mission e with
      | Some x => (Errored x, [EvArm; EvStartMission; EvCaught x])
      | None => let (r, t) := poll (in_air e) in (r, EvArm :: EvStartMission :: t)
      end
  end.

(** The [while attempt < max_attempts] loop; [remaining] is
    [max_attempts - attempt]. *)
Fixpoint takeoff_loop (env : nat -> attempt_env) (remaining attempt : nat)
  : result unit * list event :=
  match remaining with
  | O => (Raise RuntimeError, [])
  | S remaining' =>
      match attempt_once (env attempt) with
      | (Airborne, t) => (Ok tt, t)
      | (_, t) =>
          let (r, t') := takeoff_loop env remaining' (S attempt) in
          (r, t ++ EvSleep 1 :: t')
      end
  end.

Definition attempt_takeoff (env : nat -> attempt_env) : result unit * list event :=
  takeoff_loop env (max_attempts - 0) 0.

Definition is_arm (e : event) : bool :=
  match e with EvArm => true | _ => false end.

Definition is_sleep (e : event) : bool :=
  match e with EvSleep _ => true | _ => false end.

(** Number of attempts started, and of sleeps taken, in a trace. *)
Definition attempts_made (t : list event) : nat := List.length (filter is_arm t).
Definition sleeps_taken (t : list event) : nat := List.length (filter is_sleep t).

Definition airborne (e : attempt_env) : bool :=
  match fst (attempt_once e) with Airborne => true | _ => false end.

(** Trace of attempts [a .. a+k-1] when none of them ends airborne: each
    is followed by the one-second sleep of line 129. *)
Definition attempts_from (env : nat -> attempt_env) (a k : nat) : list event :=
  concat (map (fun j => snd (attempt_once (env j)) ++ [EvSleep 1]) (seq a k)).

Definition failed_attempts (env : nat -> attempt_env) (k : nat) : list event :=
  attempts_from env 0 k.

(** An item that lets the poll go on: not airborne, examined in time. *)
Definition waiting (it : bool * Q) : Prop := fst it = false /\ snd it <= 1.

(** The polls of a run of such items. *)
Definition not_yet (pre : list (bool * Q)) : list event :=
  map (fun _ => EvInAir false) pre.

End Takeoff.

(** ** Telemetry loops ([log_gps], [log_odometry]) *)

Module Recorder.

Record position : Type := mkPosition {
  latitude_deg : Q;
  longitude_deg : Q;
  absolute_altitude_m : Q
}.

Record odometry : Type := mkOdometry {
  time_usec : Z;
  q_w : Q; q_x : Q; q_y : Q; q_z : Q;
  x_m_s : Q; y_m_s : Q; z_m_s : Q
}.

(** The dictionary handed to [writer.writerow]; [Alt = None] is the
    null field. *)
Record row : Type := mkRow {
  SimTime : Q;
  Lat : Q;
  Lon : Q;
  Alt : option Q;
  qw : Q; qx : Q; qy : Q; qz : Q;
  Vx : Q; Vy : Q; Vz : Q
}.

(** A written row together with, as a ghost component, the unrounded
    [sim_time_s] of the sample it was composed from. *)
Record entry : Type := mkEntry {
  sample_time : Q;
  written : row
}.

(** Local variables of [log_odometry] and the rows written so far. *)
Record recorder : Type := mkRecorder {
  a : Z;
  b : Z;
  c : Z;
  last_sim_time : option Q;
  log : list entry
}.

Definition initial_recorder : recorder := mkRecorder 1 0 1 None [].

Definition datos_por_segundo : Z := 1.
Definition umbral_espera : Z := (20 * datos_por_segundo)%Z.

Inductive outcome : Type :=
| Continue (r : recorder)
| Return (r : recorder)
| Raised (e : exn) (r : recorder).

(** Body of the loop of [log_gps]. *)
Definition log_gps (g : globals) (gps_info : position) : globals :=
  mkGlobals (PNum (latitude_deg gps_info))
            (PNum (longitude_deg gps_info))
            (PNum (absolute_altitude_m gps_info))
            (last_lat g) (last_lon g) (last_alt g) (inic_alt g).

(** [sim_time_us / 1e6]. *)
Definition seconds (sim_time_us : Z) : Q := inject_Z sim_time_us / 1000000.

(** Lines 151-153: is the sample in the whole second of the last kept one? *)
Definition same_second (sim_time_s : Q) (last : option Q) : bool :=
  match last with
  | Some l => Qeq_bool (round sim_time_s 0) (round l 0)
  | None => false
  end.

(** Lines 160-172: the row, fields evaluated in order. *)
Definition compose_row (g : globals) (odom : odometry) (sim_time_s : Q)
  : result row :=
  lat <- round_val (current_lat g) 7 ;;
  lon <- round_val (current_lon g) 7 ;;
  alt <- (if truthy (current_alt g)
          then x <- round_val (current_alt g) 3 ;; Ok (Some x)
          else Ok None) ;;
  Ok (mkRow (round sim_time_s 2) lat lon alt
            (round (q_w odom) 0) (round (q_x odom) 0)
            (round (q_y odom) 0) (round (q_z odom) 0)
            (round (x_m_s odom) 3) (round (y_m_s odom) 3)
            (round (z_m_s odom) 3)).

(** [x and y], the right operand evaluated only when the left is true. *)
Definition and_then (x y : result bool) : result bool :=
  v <- x ;; if (v : bool) then y else Ok false.

(** [abs(cur - target) < tol]. *)
Definition near (cur target : pyval) (tol : Q) : result bool :=
  d <- sub cur target ;;
  m <- abs d ;;
  lt_num m tol.

(** [abs(cur - target - base) < tol]. *)
Definition near_alt (cur target base : pyval) (tol : Q) : result bool :=
  d <- sub cur target ;;
  d' <- sub d base ;;
  m <- abs d' ;;
  lt_num m tol.

(** Line 175: all four values are known. *)
Definition position_known (g : globals) : bool :=
  is_not_none (current_lat g) && is_not_none (current_lon g) &&
  is_not_none (current_alt g) && is_not_none (inic_alt g).

(** Line 177, on the incremented [a]. *)
Definition settle_condition (g : globals) (a b : Z) : result bool :=
  and_then (Ok (b =? 0)%Z)
  (and_then (near (current_lat g) (last_lat g) 0.01)
  (and_then (near (current_lon g) (last_lon g) 0.01)
  (and_then (near_alt (current_alt g) (last_alt g) (inic_alt g) 0.5)
            (Ok (umbral_espera <? a)%Z)))).

(** Lines 175-182. *)
Definition check_landing (g : globals) (r : recorder) : outcome :=
  if position_known g then
    let a' := (a r + 1)%Z in
    match settle_condition g a' (b r) with
    | Raise e => Raised e (mkRecorder a' (b r) (c r) (last_sim_time r) (log r))
    | Ok settle =>
        let b' := if settle then 1%Z else b r in
        let c' := if settle then a' else c r in
        let r' := mkRecorder a' b' c' (last_sim_time r) (log r) in
        if (b' =? 1)%Z && (umbral_espera <? a' - c')%Z
        then Return r' else Continue r'
    end
  else Continue r.

(** Body of the loop of [log_odometry], lines 148-182. *)
Definition odometry_body (g : globals) (r : recorder) (odom : odometry)
  : outcome :=
  let sim_time_us := time_usec odom in
  let sim_time_s := seconds sim_time_us in
  if same_second sim_time_s (last_sim_time r) then Continue r
  else
    let r1 := mkRecorder (a r) (b r) (c r) (Some sim_time_s) (log r) in
    match compose_row g odom sim_time_s with
    | Raise e => Raised e r1
    | Ok rw =>
        check_landing g
          (mkRecorder (a r1) (b r1) (c r1) (last_sim_time r1)
                      (log r1 ++ [mkEntry sim_time_s rw]))
    end.

(** The two loops share one thread: every message of either stream is
    handled to the end of its loop body before the next one. *)
Inductive message : Type :=
| Position (gps_info : position)
| Odometry (odom : odometry).

Fixpoint run_telemetry (g : globals) (r : recorder) (msgs : list message)
  : globals * outcome :=
  match msgs with
  | [] => (g, Continue r)
  | Position p :: rest => run_telemetry (log_gps g p) r rest
  | Odometry o :: rest =>
      match odometry_body g r o with
      | Continue r' => run_telemetry g r' rest
      | out => (g, out)
      end
  end.

Definition settled (r : recorder) : bool := (b r =? 1)%Z.

Definition recorder_of (o : outcome) : recorder :=
  match o with
  | Continue r => r
  | Return r => r
  | Raised _ r => r
  end.

(** Whole second of the sample behind a written row. *)
Definition whole_second (e : entry) : Q := round (sample_time e) 0.

(** A state the two loops can be in while both still run. *)
Definition reachable (g : globals) (r : recorder) : Prop :=
  exists g0 msgs,
    current_lat g0 = PNone /\ current_lon g0 = PNone /\ current_alt g0 = PNone /\
    run_telemetry g0 initial_recorder msgs = (g, Continue r).

(** Invariant of the counters: settled only past the threshold. *)
Definition counters_ok (r : recorder) : Prop :=
  b r = 0%Z \/ (b r = 1%Z /\ (umbral_espera < c r <= a r)%Z).

(** Timestamps of the odometry messages, in order of arrival. *)
Fixpoint odometry_times (msgs : list message) : list Z :=
  match msgs with
  | [] => []
  | Position _ :: rest => odometry_times rest
  | Odometry o :: rest => time_usec o :: odometry_times rest
  end.

(** Whole seconds of the rows written, in order of writing. *)
Definition row_seconds (r : recorder) : list Q := map whole_second (log r).

(** Invariant behind the ordering of the rows when the timestamps still
    to come are non-decreasing and not before the kept sample. *)
Definition ordered_so_far (r : recorder) (msgs : list message) : Prop :=
  StronglySorted Qlt (row_seconds r) /\
  StronglySorted Z.le (odometry_times msgs) /\
  match last_sim_time r with
  | None => log r = []
  | Some t =>
      Forall (fun e => whole_second e <= round t 0) (log r) /\
      Forall (fun u => t <= seconds u) (odometry_times msgs)
  end.

(** The position is wholly unknown or wholly numeric. *)
Definition position_numeric (g : globals) : Prop :=
  exists lat lon alt,
    current_lat g = PNum lat /\ current_lon g = PNum lon /\
    current_alt g = PNum alt.

Definition position_unset (g : globals) : Prop :=
  current_lat g = PNone /\ current_lon g = PNone /\ current_alt g = PNone.

(** Invariant of the two loops: a sample has been kept only after a
    position was received. *)
Definition kept_after_position (g : globals) (r : recorder) : Prop :=
  (position_unset g /\ last_sim_time r = None) \/ position_numeric g.

End Recorder.

(** ** Mission controller ([run]) and the race of the two loops *)

Module Controller.

(** State of an [asyncio] task. [cancel()] only requests cancellation:
    the task becomes [Cancelled] when the event loop next resumes it,
    which needs the caller to suspend (to await it). *)
Inductive task_state : Type :=
| Running
| CancelRequested
| Cancelled
| Finished
| Failed (e : exn).

Definition is_pending (t : task_state) : bool :=
  match t with
  | Running | CancelRequested => true
  | _ => false
  end.

Definition cancel (t : task_state) : task_state :=
  match t with
  | Running => CancelRequested
  | _ => t
  end.

(** What [run] leaves behind when it returns from the [with] block. *)
Record race_end : Type := mkRaceEnd {
  gps_task : task_state;
  odometry_task : task_state;
  csv_rows : list Recorder.entry;
  csv_closed : bool
}.

(** Line 92: [asyncio.wait(tasks, return_when=FIRST_COMPLETED)]; [None]
    when neither task has completed on the messages received. *)
Definition wait_first_completed (g : globals) (msgs : list Recorder.message)
  : option (task_state * task_state * Recorder.recorder) :=
  match Recorder.run_telemetry g Recorder.initial_recorder msgs with
  | (_, Recorder.Continue _) => None
  | (_, Recorder.Return r) => Some (Running, Finished, r)
  | (_, Recorder.Raised e r) => Some (Running, Failed e, r)
  end.

(** Lines 87-95. *)
Definition race (g : globals) (msgs : list Recorder.message) : option race_end :=
  match wait_first_completed g msgs with
  | None => None
  | Some (gps, odo, r) =>
      let cancel_pending t := if is_pending t then cancel t else t in
      Some (mkRaceEnd (cancel_pending gps) (cancel_pending odo)
                      (Recorder.log r) true)
  end.

(** Everything outside the script that one run of it meets. *)
Record world : Type := mkWorld {
  plan : Loader.plan_file;
  upload : option exn;
  link : nat -> Takeoff.attempt_env;
  telemetry : list Recorder.message
}.

Inductive action : Type :=
| ActUpload
| ActTakeoff (e : Takeoff.event)
| ActOpenLog.

Inductive run_result : Type :=
| Propagated (e : exn)
| Waiting
| Returned (r : race_end).

(** [run], from the reading of the plan on; the only handler of [run]
    is for [CancelledError], so every modelled exception propagates. *)
Definition run (w : world) : run_result * list action :=
  match Loader.load (plan w) initial_globals with
  | Raise e => (Propagated e, [])
  | Ok g =>
      match upload w with
      | Some e => (Propagated e, [ActUpload])
      | None =>
          let (r, t) := Takeoff.attempt_takeoff (link w) in
          let acts := ActUpload :: map ActTakeoff t in
          match r with
          | Raise e => (Propagated e, acts)
          | Ok _ =>
              match race g (telemetry w) with
              | None => (Waiting, acts ++ [ActOpenLog])
              | Some e => (Returned e, acts ++ [ActOpenLog])
              end
          end
      end
  end.

End Controller.

(** ** Concrete inputs *)

(** The scenarios of the specification: a return-to-launch plan and a
    plan ending at a waypoint, both with home at altitude 100. *)
Definition rtl_plan : pyval :=
  Loader.plan_doc [Loader.waypoint 20 [PNum 0; PNum 0; PNum 0; PNone; PNum 0; PNum 0; PNum 0]]
           (Some (Loader.home_position 10 20 100)).

Definition waypoint_params : list pyval :=
  [PNum 0; PNum 0; PNum 0; PNone; PNum 11; PNum 21; PNum 50].

Definition waypoint_plan : pyval :=
  Loader.plan_doc [Loader.waypoint 22 [PNum 15]; Loader.waypoint 16 waypoint_params]
           (Some (Loader.home_position 10 20 100)).

Definition plan_without_home : pyval :=
  Loader.plan_doc [Loader.waypoint 22 [PNum 15]; Loader.waypoint 16 waypoint_params] None.

(** A link on which the vehicle is airborne at the first poll, and one on
    which it never is. *)
Definition airborne_at_once : nat -> Takeoff.attempt_env :=
  fun _ => Takeoff.mkAttempt None None [(true, 0)].

Definition never_airborne : nat -> Takeoff.attempt_env :=
  fun _ => Takeoff.mkAttempt None None [(false, 1 # 2); (false, 3 # 2)].

(** A link whose first attempt fails in [arm()], whose second times out
    and whose third sees the vehicle airborne. *)
Definition airborne_at_third : nat -> Takeoff.attempt_env :=
  fun k =>
    match k with
    | O => Takeoff.mkAttempt (Some ActionError) None []
    | S O => Takeoff.mkAttempt None None [(false, 1 # 2); (false, 3 # 2)]
    | _ => Takeoff.mkAttempt None None [(false, 1 # 4); (true, 3 # 4)]
    end.

(** The second scenario of the specification during recording: expected
    end (11, 21, 50) over a home altitude of 100, vehicle at
    (11, 21, 150.2). *)
Definition near_end_globals : globals :=
  mkGlobals (PNum 11) (PNum 21) (PNum 150.2)
            (PNum 11) (PNum 21) (PNum 50) (PNum 100).


Definition sample_at (second : Z) : Recorder.odometry :=
  Recorder.mkOdometry (second * 1000000) 1 0 0 0 0 0 0.

(** Counters after 19 evaluated rows, not settled. *)
Definition before_threshold : Recorder.recorder :=
  Recorder.mkRecorder 20 0 1 (Some 19) [].


(** Recording after the waypoint plan of the second scenario was loaded:
    a first position fix, then the odometry sample of second 1. *)
Definition loaded_globals : globals :=
  set_expected initial_globals (PNum 11) (PNum 21) (PNum 50) (PNum 100).

Definition first_fix : Recorder.position := Recorder.mkPosition 11 21 150.2.

Definition first_row_messages : list Recorder.message :=
  [Recorder.Position first_fix; Recorder.Odometry (sample_at 1)].

Definition after_first_row : globals * Recorder.recorder :=
  let out := Recorder.run_telemetry loaded_globals Recorder.initial_recorder
               first_row_messages in
  (fst out, Recorder.recorder_of (snd out)).

(** A sample 0.4 s after second 1. *)
Definition sample_1_4 : Recorder.odometry :=
  Recorder.mkOdometry 1400000 1 0 0 0 0 0 0.

(** A stream whose timestamps go back from second 5 to second 3. *)
Definition backwards_messages : list Recorder.message :=
  [Recorder.Position first_fix;
   Recorder.Odometry (sample_at 5);
   Recorder.Odometry (sample_at 3)].

(** The same stream with non-decreasing timestamps. *)
Definition forwards_messages : list Recorder.message :=
  [Recorder.Position first_fix;
   Recorder.Odometry (sample_at 1);
   Recorder.Odometry sample_1_4;
   Recorder.Odometry (sample_at 2)].

(** A whole recording: a position fix at the expected end, then one
    odometry sample per second for 45 seconds. *)
Definition landing_messages : list Recorder.message :=
  Recorder.Position first_fix ::
  map (fun k => Recorder.Odometry (sample_at (Z.of_nat k))) (seq 1 45).

(** A position fix at sea level. *)
Definition sea_level_globals : globals :=
  mkGlobals (PNum 11) (PNum 21) (PNum 0)
            (PNum 11) (PNum 21) (PNum 50) (PNum 100).

(** ** Orchestrator ([run.py]): one flight plan from file to result *)

Module Orchestrator.

(** How an awaited call ends: it returns, never returns, or raises. *)
Inductive completion (A : Type) : Type :=
| Done (x : A)
| Hangs
| Throws (e : exn).

Arguments Done {A} x.
Arguments Hangs {A}.
Arguments Throws {A} e.

(** Content of the trajectory file: the blank file the orchestrator
    creates, or the header and rows the mission script writes. *)
Inductive csv_file : Type :=
| Blank
| Table (rows : list Recorder.row).

Inductive action : Type :=
| ActPrepare
| ActWritePlan
| ActMachineStatus (status : string)
| ActStartSimulator (home_lat home_lon home_alt : pyval)
| ActLaunchScript
| ActShutdown
| ActReadCsv
| ActPlanStatus (status : string) (csv_result : csv_file)
| ActRemoveFiles
| ActSleep (seconds : Z).

(** Everything outside the orchestrator that the processing of one plan
    meets: the outcome of each call that can fail, the plan file as a
    reader finds it once written, the decoded and stripped lines of the
    simulator's output up to its end, and what the mission script meets
    on the vehicle link. *)
Record plan_env : Type := mkPlanEnv {
  prepare : option exn;
  write_plan : option exn;
  written_file : Loader.plan_file;
  start_simulator : option exn;
  stdout : list string;
  launch_script : option exn;
  script_upload : option exn;
  script_link : nat -> Takeoff.attempt_env;
  script_telemetry : list Recorder.message;
  shutdown : option exn;
  read_csv : option exn;
  remove_files : option exn
}.

Definition script_world (env : plan_env) : Controller.world :=
  Controller.mkWorld (written_file env) (script_upload env)
                     (script_link env) (script_telemetry env).

(** [needle in hay]. *)
Fixpoint contains (needle hay : string) : bool :=
  if String.prefix needle hay then true
  else match hay with
       | EmptyString => false
       | String _ hay' => contains needle hay'
       end.

Definition ready (decoded_line : string) : bool :=
  contains "Ready for takeoff!" decoded_line.

(** [update_machine_status]: nothing without a machine id; a failure of
    the update is caught inside. *)
Definition update_machine_status (machine_id : pyval) (status : string)
  : list action :=
  if truthy machine_id then [ActMachineStatus status] else [].

(** [run_mavsdk_mission]: the script runs as a child process and is
    waited for; its exit status is not looked at. *)
Definition run_mavsdk_mission (env : plan_env) (csv : csv_file)
  : completion csv_file * list action :=
  match launch_script env with
  | Some e => (Throws e, [ActLaunchScript])
  | None =>
      match fst (Controller.run (script_world env)) with
      | Controller.Propagated _ => (Done csv, [ActLaunchScript])
      | Controller.Waiting => (Hangs, [ActLaunchScript])
      | Controller.Returned e =>
          (Done (Table (map Recorder.written (Controller.csv_rows e))),
           [ActLaunchScript])
      end
  end.

(** [monitor_px4_output] over the lines still to come. *)
Fixpoint monitor_px4_output (env : plan_env) (lines : list string)
    (csv : csv_file) : completion csv_file * list action :=
  match lines with
  | [] => (Done csv, [])
  | decoded_line :: rest =>
      if ready decoded_line then
        match run_mavsdk_mission env csv with
        | (Done csv', t) =>
            match shutdown env with
            | Some e => (Throws e, t ++ [ActShutdown])
            | None => (Done csv', t ++ [ActShutdown])
            end
        | out => out
        end
      else monitor_px4_output env rest csv
  end.

(** [process_flight_plan]. *)
Definition process_flight_plan (machine_id : pyval) (env : plan_env)
  : completion unit * list action :=
  match prepare env with
  | Some e => (Throws e, [ActPrepare])
  | None =>
  match write_plan env with
  | Some e =>
      (Done tt,
       [ActPrepare; ActWritePlan] ++ update_machine_status machine_id "Error")
  | None =>
  match Loader.extract_home_position (written_file env) with
  | Raise e => (Throws e, [ActPrepare; ActWritePlan])
  | Ok (home_lat, home_lon, home_alt) =>
  let started :=
    [ActPrepare; ActWritePlan; ActStartSimulator home_lat home_lon home_alt] in
  match start_simulator env with
  | Some e => (Done tt, started ++ update_machine_status machine_id "Error")
  | None =>
  match monitor_px4_output env (stdout env) Blank with
  | (Throws e, t) =>
      (Done tt, started ++ t ++ update_machine_status machine_id "Error")
  | (Hangs, t) => (Hangs, started ++ t)
  | (Done csv_result, t) =>
  match read_csv env with
  | Some e => (Throws e, started ++ t ++ [ActReadCsv])
  | None =>
  let processed :=
    started ++ t ++ [ActReadCsv; ActPlanStatus "procesado" csv_result] in
  match remove_files env with
  | Some e => (Throws e, processed ++ [ActRemoveFiles])
  | None =>
      (Done tt,
       processed ++ [ActRemoveFiles]
                 ++ update_machine_status machine_id "Disponible")
  end end end end end end end.

(** The [for plan in plans] loop of [monitor_flight_plan]. *)
Fixpoint process_plans (machine_id : pyval) (plans : list plan_env)
  : completion unit * list action :=
  match plans with
  | [] => (Done tt, [])
  | plan :: rest =>
      match process_flight_plan machine_id plan with
      | (Done _, t) =>
          let (r, t') := process_plans machine_id rest in (r, t ++ t')
      | out => out
      end
  end.

(** One turn of the [while True] loop of [monitor_flight_plan]: the
    fetch, the plans, and the 5-second sleep of either branch. *)
Definition poll_once (machine_id : pyval) (fetch : result (list plan_env))
  : completion unit * list action :=
  match fetch with
  | Raise _ => (Done tt, [ActSleep 5])
  | Ok plans =>
      match process_plans machine_id plans with
      | (Hangs, t) => (Hangs, t)
      | (_, t) => (Done tt, t ++ [ActSleep 5])
      end
  end.

Definition not_ready (decoded_line : string) : Prop :=
  ready decoded_line = false.

Definition is_launch (x : action) : bool :=
  match x with ActLaunchScript => true | _ => false end.

(** Number of times the mission script is launched in a trace. *)
Definition launches (t : list action) : nat := List.length (filter is_launch t).

End Orchestrator.

(** A plan processed without any failure: the simulator announces
    readiness on its third line, the vehicle is airborne at once and the
    telemetry is that of a whole recording. *)
Definition smooth_env : Orchestrator.plan_env :=
  Orchestrator.mkPlanEnv None None (Loader.Parsed waypoint_plan) None
    ["INFO  [init] found model autostart file";
     "INFO  [commander] Ready for takeoff!";
     "INFO  [logger] Opened full log file"]
    None None airborne_at_once landing_messages None None None.

(** The same plan on a link where the vehicle never gets airborne. *)
Definition grounded_env : Orchestrator.plan_env :=
  Orchestrator.mkPlanEnv None None (Loader.Parsed waypoint_plan) None
    ["INFO  [commander] Ready for takeoff!"]
    None None never_airborne [] None None None.

(** A simulator that exits before announcing readiness. *)
Definition silent_env : Orchestrator.plan_env :=
  Orchestrator.mkPlanEnv None None (Loader.Parsed waypoint_plan) None
    ["INFO  [init] found model autostart file"; "ERROR [px4] Startup failed"]
    None None airborne_at_once landing_messages None None None.

(** A plan written without a home position. *)
Definition homeless_env : Orchestrator.plan_env :=
  Orchestrator.mkPlanEnv None None (Loader.Parsed plan_without_home) None
    ["INFO  [commander] Ready for takeoff!"]
    None None airborne_at_once landing_messages None None None.

(** A mission run whose first odometry sample precedes any position. *)
Definition early_sample_world : Controller.world :=
  Controller.mkWorld (Loader.Parsed waypoint_plan) None airborne_at_once
                     [Recorder.Odometry (sample_at 1)].

(** ** The written time of the rows *)

(** [SimTime] of the rows written, in order of writing, and its whole
    seconds. *)
Definition row_times (r : Recorder.recorder) : list Q :=
  map (fun e => Recorder.SimTime (Recorder.written e)) (Recorder.log r).

Definition written_seconds (r : Recorder.recorder) : list Q :=
  map (fun e => round (Recorder.SimTime (Recorder.written e)) 0)
      (Recorder.log r).

(** A log entry of a run over [msgs]: its row carries the time of one of
    the odometry messages, rounded to 2 decimals. *)
Definition entry_from (msgs : list Recorder.message) (e : Recorder.entry)
  : Prop :=
  Recorder.SimTime (Recorder.written e) = round (Recorder.sample_time e) 2 /\
  exists o, In (Recorder.Odometry o) msgs /\
            Recorder.sample_time e = Recorder.seconds (Recorder.time_usec o).

(** A stream with non-decreasing timestamps, 1.496 s then 1.500001 s. *)
Definition rounding_messages : list Recorder.message :=
  [Recorder.Position first_fix;
   Recorder.Odometry (Recorder.mkOdometry 1496000 1 0 0 0 0 0 0);
   Recorder.Odometry (Recorder.mkOdometry 1500001 1 0 0 0 0 0 0)].

(** ** Late airborne reports *)

(** A link that reports the vehicle airborne 1.5 s after the wait began,
    after a first report at 0.5 s, and one whose only report comes after
    an hour. *)
Definition late_airborne : Takeoff.attempt_env :=
  Takeoff.mkAttempt None None [(false, 1 # 2); (true, 3 # 2)].

Definition very_late_airborne : Takeoff.attempt_env :=
  Takeoff.mkAttempt None None [(true, 3600)].

(** ** Exception classes *)

(** What [except ValueError] catches among the modelled exceptions:
    [json.JSONDecodeError] is a subclass of [ValueError]. *)
Definition is_value_error (e : exn) : bool :=
  match e with
  | ValueError | JSONDecodeError => true
  | _ => false
  end.

(** ** Further invariants of the recorder *)

(** Every evaluation follows a written row, and a settled recorder that
    is still running has not yet waited the second threshold out. *)
Definition rows_cover_count (r : Recorder.recorder) : Prop :=
  Recorder.counters_ok r /\
  (Recorder.a r - 1 <= Z.of_nat (List.length (Recorder.log r)))%Z /\
  (Recorder.b r = 1%Z ->
   (Recorder.a r - Recorder.c r <= Recorder.umbral_espera)%Z).

(** The expected end position and the base altitude are numbers. *)
Definition expected_end_numeric (g : globals) : Prop :=
  exists elat elon ealt base,
    last_lat g = PNum elat /\ last_lon g = PNum elon /\
    last_alt g = PNum ealt /\ inic_alt g = PNum base.

(** A plan whose last waypoint has no latitude, loaded over a known
    home altitude, with the vehicle at a known position. *)
Definition null_latitude_globals : globals :=
  mkGlobals (PNum 11) (PNum 21) (PNum 150.2)
            PNone (PNum 21) (PNum 50) (PNum 100).

(** A position known while nothing was loaded. *)
Definition unloaded_globals : globals :=
  mkGlobals (PNum 11) (PNum 21) (PNum 150.2) PNone PNone PNone PNone.

(** * Properties *)

(** ** Mission loader *)

Section LoaderProperties.

Import Loader.

Lemma last_snoc_default (l : list pyval) (x d : pyval) :
  last (l ++ [x]) d = x.
Proof.
  induction l as [|y l IH]; [reflexivity|].
  simpl. destruct (l ++ [x]) eqn:E; [destruct l; discriminate|exact IH].
Qed.

Lemma getitem_last_snoc (l : list pyval) (x : pyval) :
  getitem_last (PList (l ++ [x])) = Ok x.
Proof.
  unfold getitem_last. destruct l as [|y l]; [reflexivity|].
  simpl. f_equal. destruct (l ++ [x]) eqn:E; [destruct l; discriminate|].
  rewrite <- E. apply last_snoc_default.
Qed.

Lemma getitem_str_truthy (v x : pyval) (k : string) :
  getitem_str v k = Ok x -> truthy v = true.
Proof.
  destruct v as [| | | | |d]; try discriminate.
  destruct d; [discriminate|reflexivity].
Qed.

Lemma eq_int_inject (n m : Z) : eq_int (PNum (inject_Z n)) m = (n =? m)%Z.
Proof.
  unfold eq_int, Qeq_bool, inject_Z. simpl.
  rewrite !Z.mul_1_r. reflexivity.
Qed.

(** C3. For a mission document with a non-empty item list and a home
    position (lat, lon, alt), the load succeeds and leaves the current
    position as it was. When the command of the last item is 20,
    [last_lat], [last_lon] and [last_alt] receive the home latitude,
    longitude and altitude and [inic_alt] receives 0; otherwise
    [last_lat], [last_lon] and [last_alt] receive entries 4, 5 and 6 of
    the last item's params and [inic_alt] receives the home altitude. *)
Theorem expected_end_position
    (g : globals) (mission_json mission last_wp : pyval)
    (front params : list pyval) (command : Z)
    (hlat hlon halt p4 p5 p6 : pyval)
    (Hmission : getitem_str mission_json "mission" = Ok mission)
    (Hitems : getitem_str mission "items" = Ok (PList (front ++ [last_wp])))
    (Hhome : dict_get mission "plannedHomePosition" PNone
             = Ok (PList [hlat; hlon; halt]))
    (Hcommand : getitem_str last_wp "command" = Ok (PNum (inject_Z command)))
    (Hparams : command <> 20%Z ->
               getitem_str last_wp "params" = Ok (PList params) /\
               nth_error params 4 = Some p4 /\
               nth_error params 5 = Some p5 /\
               nth_error params 6 = Some p6) :
  exists g',
    load (Parsed mission_json) g = Ok g' /\
    current_lat g' = current_lat g /\
    current_lon g' = current_lon g /\
    current_alt g' = current_alt g /\
    (command = 20%Z ->
     last_lat g' = hlat /\ last_lon g' = hlon /\ last_alt g' = halt /\
     inic_alt g' = PNum 0) /\
    (command <> 20%Z ->
     last_lat g' = p4 /\ last_lon g' = p5 /\ last_alt g' = p6 /\
     inic_alt g' = halt).
Proof.
  unfold load, read_plan, expected_end. cbn [bind].
  rewrite Hmission. cbn [bind]. rewrite Hitems. cbn [bind].
  rewrite Hhome. cbn [bind].
  assert (Ht : truthy (PList (front ++ [last_wp])) = true)
    by (destruct front; reflexivity).
  rewrite Ht, getitem_last_snoc. cbn [bind].
  rewrite (getitem_str_truthy _ _ _ Hcommand). cbn [truthy andb].
  rewrite Hcommand. cbn [bind].
  rewrite eq_int_inject. unfold rtl_command.
  destruct (Z.eqb_spec command 20) as [Heq|Hne].
  - cbn [bind getitem_int nth_error]. eexists. split; [reflexivity|].
    repeat split; try reflexivity; contradiction.
  - destruct (Hparams Hne) as (Hp & H4 & H5 & H6).
    rewrite Hp. cbn [bind getitem_int]. rewrite H4, H5, H6.
    cbn [bind nth_error]. eexists. split; [reflexivity|].
    repeat split; try reflexivity; contradiction.
Qed.

Lemma expected_end_position_witness :
  (exists g',
     load (Parsed rtl_plan) initial_globals = Ok g' /\
     last_lat g' = PNum 10 /\ last_lon g' = PNum 20 /\
     last_alt g' = PNum 100 /\ inic_alt g' = PNum 0) /\
  (exists g',
     load (Parsed waypoint_plan) initial_globals = Ok g' /\
     last_lat g' = PNum 11 /\ last_lon g' = PNum 21 /\
     last_alt g' = PNum 50 /\ inic_alt g' = PNum 100).
Proof.
  split.
  - destruct (expected_end_position initial_globals rtl_plan
                _ _ [] [] 20 (PNum 10) (PNum 20) (PNum 100) PNone PNone PNone
                eq_refl eq_refl eq_refl eq_refl)
      as (g' & Hload & _ & _ & _ & Hrtl & _).
    + intros H. exfalso. apply H. reflexivity.
    + exists g'. split; [exact Hload|]. apply Hrtl. reflexivity.
  - destruct (expected_end_position initial_globals waypoint_plan
                _ _ [Loader.waypoint 22 [PNum 15]] waypoint_params 16
                (PNum 10) (PNum 20) (PNum 100) (PNum 11) (PNum 21) (PNum 50)
                eq_refl eq_refl eq_refl eq_refl)
      as (g' & Hload & _ & _ & _ & _ & Hwp).
    + intros _. repeat split.
    + exists g'. split; [exact Hload|]. apply Hwp. discriminate.
Defined.

(** C7, as stated, fails: a plan with items, not ending in
    return-to-launch and without a home position, is loaded without
    error, and the run goes on to upload and take off. *)
Lemma loader_without_home_counterexample :
  load (Parsed plan_without_home) initial_globals = Ok initial_globals /\
  Controller.run
    (Controller.mkWorld (Parsed plan_without_home) None airborne_at_once [])
  = (Controller.Waiting,
     [Controller.ActUpload;
      Controller.ActTakeoff Takeoff.EvArm;
      Controller.ActTakeoff Takeoff.EvStartMission;
      Controller.ActTakeoff (Takeoff.EvInAir true);
      Controller.ActOpenLog]).
Proof. split; reflexivity. Qed.

(** The orchestrator, not the loader, is where a document without a home
    position is refused. *)
Lemma extract_home_position_requires_home (items : list pyval) :
  extract_home_position (Parsed (plan_doc items None)) = Raise ValueError.
Proof. reflexivity. Qed.

(** C7, amended. The loader fails, and [run] propagates the error
    before any action on the vehicle, when the mission file is missing,
    is not valid JSON, or has no [mission] / [items] entry. A document
    without a home position does not fail: the expected end position and
    the base altitude are left as they were. *)
Theorem loader_failure_modes (w : Controller.world) :
  (Controller.plan w = Missing ->
   Controller.run w = (Controller.Propagated FileNotFoundError, [])) /\
  (Controller.plan w = Malformed ->
   Controller.run w = (Controller.Propagated JSONDecodeError, [])) /\
  (forall j e,
     Controller.plan w = Parsed j ->
     (mission <- getitem_str j "mission" ;; getitem_str mission "items")
       = Raise e ->
     Controller.run w = (Controller.Propagated e, [])) /\
  (forall items g,
     Controller.plan w = Parsed (plan_doc items None) ->
     load (Controller.plan w) g = Ok g).
Proof.
  repeat split.
  - intros H. unfold Controller.run. rewrite H. reflexivity.
  - intros H. unfold Controller.run. rewrite H. reflexivity.
  - intros j e H Hraise. unfold Controller.run. rewrite H.
    unfold load, read_plan, expected_end. cbn [bind].
    destruct (getitem_str j "mission") as [mission|e1]; cbn [bind] in *.
    + rewrite Hraise. reflexivity.
    + inversion Hraise. reflexivity.
  - intros items g H. rewrite H.
    unfold load, read_plan, expected_end, plan_doc. cbn.
    destruct items as [|x l]; cbn; [reflexivity|].
    rewrite andb_false_r. reflexivity.
Qed.

Lemma loader_failure_modes_witness :
  Controller.run (Controller.mkWorld Missing None airborne_at_once [])
    = (Controller.Propagated FileNotFoundError, []) /\
  Controller.run (Controller.mkWorld Malformed None airborne_at_once [])
    = (Controller.Propagated JSONDecodeError, []) /\
  Controller.run
    (Controller.mkWorld (Parsed (PDict [("fileType", PStr "Plan")])) None
                        airborne_at_once [])
    = (Controller.Propagated KeyError, []) /\
  load (Parsed plan_without_home) initial_globals = Ok initial_globals.
Proof.
  split; [|split; [|split]].
  - apply (proj1 (loader_failure_modes
                    (Controller.mkWorld Missing None airborne_at_once []))).
    reflexivity.
  - apply (proj1 (proj2 (loader_failure_modes
                    (Controller.mkWorld Malformed None airborne_at_once [])))).
    reflexivity.
  - eapply (proj1 (proj2 (proj2 (loader_failure_modes
                    (Controller.mkWorld (Parsed (PDict [("fileType", PStr "Plan")]))
                                        None airborne_at_once []))))).
    + reflexivity.
    + reflexivity.
  - apply (proj2 (proj2 (proj2 (loader_failure_modes
                    (Controller.mkWorld (Parsed plan_without_home) None
                                        airborne_at_once []))))
             [Loader.waypoint 22 [PNum 15]; Loader.waypoint 16 waypoint_params]).
    reflexivity.
Defined.

End LoaderProperties.

(** ** Takeoff sequencer *)

Section TakeoffProperties.

Import Takeoff.

Lemma Qlt_bool_true (x y : Q) : Qlt_bool x y = true <-> x < y.
Proof.
  unfold Qlt_bool. rewrite Qlt_alt.
  destruct (Qcompare x y); split; congruence.
Qed.

Lemma Qlt_bool_false (x y : Q) : Qlt_bool x y = false <-> y <= x.
Proof.
  split; intros H.
  - apply Qnot_lt_le. intros Hlt. apply Qlt_bool_true in Hlt. congruence.
  - destruct (Qlt_bool x y) eqn:E; [|reflexivity].
    apply Qlt_bool_true in E. exfalso. exact (Qle_not_lt _ _ H E).
Qed.

Lemma poll_airborne_item (pre rest : list (bool * Q)) (elapsed : Q) :
  Forall waiting pre ->
  poll (pre ++ (true, elapsed) :: rest) = (Airborne, not_yet pre ++ [EvInAir true]).
Proof.
  induction 1 as [|[flag el] pre [Hf Hel] _ IH]; [reflexivity|].
  simpl in Hf, Hel. subst flag. cbn [app poll not_yet map].
  apply Qlt_bool_false in Hel. rewrite Hel.
  unfold not_yet in IH. rewrite IH. reflexivity.
Qed.

Lemma poll_late_item (pre rest : list (bool * Q)) (elapsed : Q) :
  Forall waiting pre -> 1 < elapsed ->
  poll (pre ++ (false, elapsed) :: rest)
  = (TimedOut, not_yet pre ++ [EvInAir false; EvTimeout]).
Proof.
  intros Hpre Hlate.
  induction Hpre as [|[flag el] pre [Hf Hel] _ IH].
  - cbn. apply Qlt_bool_true in Hlate. rewrite Hlate. reflexivity.
  - simpl in Hf, Hel. subst flag. cbn [app poll not_yet map].
    apply Qlt_bool_false in Hel. rewrite Hel.
    unfold not_yet in IH. rewrite IH. reflexivity.
Qed.

Lemma poll_airborne_inv (items : list (bool * Q)) :
  fst (poll items) = Airborne ->
  exists pre elapsed rest,
    items = pre ++ (true, elapsed) :: rest /\ Forall waiting pre.
Proof.
  induction items as [|[flag el] items IH]; [discriminate|].
  cbn [poll]. destruct flag.
  - intros _. exists [], el, items. split; [reflexivity|constructor].
  - destruct (Qlt_bool 1 el) eqn:E; [discriminate|].
    destruct (poll items) as [r t] eqn:P. cbn [fst] in *.
    intros Hr. destruct (IH Hr) as (pre & x & rest & -> & Hpre).
    exists ((false, el) :: pre), x, rest. split; [reflexivity|].
    constructor; [split; [reflexivity|now apply Qlt_bool_false]|exact Hpre].
Qed.

Lemma poll_quiet (items : list (bool * Q)) :
  filter is_arm (snd (poll items)) = [] /\
  filter is_sleep (snd (poll items)) = [].
Proof.
  induction items as [|[flag el] items [IHa IHs]]; [split; reflexivity|].
  cbn [poll]. destruct flag; [split; reflexivity|].
  destruct (Qlt_bool 1 el); [split; reflexivity|].
  destruct (poll items) as [r t]. cbn [snd] in *. cbn. split; assumption.
Qed.

Lemma attempt_once_counts (e : attempt_env) :
  filter is_arm (snd (attempt_once e)) = [EvArm] /\
  filter is_sleep (snd (attempt_once e)) = [].
Proof.
  unfold attempt_once.
  destruct (arm e); [split; reflexivity|].
  destruct (start_mission e); [split; reflexivity|].
  destruct (poll_quiet (in_air e)) as [Ha Hs].
  destruct (poll (in_air e)) as [r t]. cbn [snd] in *. cbn.
  rewrite Ha, Hs. split; reflexivity.
Qed.

Lemma attempts_from_counts (env : nat -> attempt_env) (k a : nat) :
  attempts_made (attempts_from env a k) = k /\
  sleeps_taken (attempts_from env a k) = k.
Proof.
  unfold attempts_made, sleeps_taken, attempts_from.
  revert a. induction k as [|k IH]; intros a; [split; reflexivity|].
  cbn [seq map concat]. rewrite <- !app_assoc, !filter_app, !length_app.
  destruct (attempt_once_counts (env a)) as [-> ->].
  destruct (IH (S a)) as [-> ->]. split; reflexivity.
Qed.

Lemma takeoff_loop_exhausted (env : nat -> attempt_env) (n a : nat) :
  (forall j, (j < n)%nat -> airborne (env (a + j)%nat) = false) ->
  takeoff_loop env n a = (Raise RuntimeError, attempts_from env a n).
Proof.
  revert a. induction n as [|n IH]; intros a Hnever; [reflexivity|].
  cbn [takeoff_loop]. unfold attempts_from. cbn [seq map concat].
  assert (H0 : airborne (env a) = false).
  { specialize (Hnever 0%nat). rewrite Nat.add_0_r in Hnever.
    apply Hnever. lia. }
  unfold airborne in H0.
  rewrite IH.
  - destruct (attempt_once (env a)) as [r t]. cbn [fst snd] in *.
    rewrite <- app_assoc.
    destruct r; try discriminate; reflexivity.
  - intros j Hj. replace (S a + j)%nat with (a + S j)%nat by lia.
    apply Hnever. lia.
Qed.

Lemma takeoff_loop_airborne (env : nat -> attempt_env) (n a k : nat) :
  (k < n)%nat ->
  airborne (env (a + k)%nat) = true ->
  (forall j, (j < k)%nat -> airborne (env (a + j)%nat) = false) ->
  takeoff_loop env n a
  = (Ok tt, attempts_from env a k ++ snd (attempt_once (env (a + k)%nat))).
Proof.
  revert a k. induction n as [|n IH]; intros a k Hk Hair Hbefore; [lia|].
  cbn [takeoff_loop]. destruct k as [|k].
  - rewrite Nat.add_0_r in Hair |- *. unfold airborne in Hair.
    destruct (attempt_once (env a)) as [r t]. cbn [fst snd] in *.
    destruct r; try discriminate. reflexivity.
  - assert (H0 : airborne (env a) = false).
    { specialize (Hbefore 0%nat). rewrite Nat.add_0_r in Hbefore.
      apply Hbefore. lia. }
    unfold airborne in H0.
    rewrite (IH (S a) k).
    + unfold attempts_from. cbn [seq map concat].
      replace (S a + k)%nat with (a + S k)%nat by lia.
      destruct (attempt_once (env a)) as [r t]. cbn [fst snd] in *.
      rewrite <- !app_assoc.
      destruct r; try discriminate; reflexivity.
    + lia.
    + replace (S a + k)%nat with (a + S k)%nat by lia. exact Hair.
    + intros j Hj. replace (S a + j)%nat with (a + S j)%nat by lia.
      apply Hbefore. lia.
Qed.

Lemma takeoff_loop_bounded (env : nat -> attempt_env) (n a : nat) :
  (attempts_made (snd (takeoff_loop env n a)) <= n)%nat.
Proof.
  revert a. induction n as [|n IH]; intros a; [apply Nat.le_refl|].
  cbn [takeoff_loop]. specialize (IH (S a)).
  destruct (attempt_once_counts (env a)) as [Ha _].
  destruct (attempt_once (env a)) as [r t]. cbn [snd] in Ha.
  destruct (takeoff_loop env n (S a)) as [r' t']. cbn [snd] in IH.
  unfold attempts_made in *.
  destruct r; cbn [snd];
    rewrite ?filter_app, ?length_app, Ha; cbn; lia.
Qed.

(** C4, as stated, fails: the wait of an attempt is not bounded by
    1 second. An airborne report examined 1.5 s after the wait began, or
    an hour after it, still ends the attempt airborne and makes the
    sequencer return normally; so an attempt that ends airborne need not
    have seen the report within the window. *)
Lemma takeoff_wait_not_bounded_counterexample :
  attempt_once late_airborne
  = (Airborne, [EvArm; EvStartMission; EvInAir false; EvInAir true]) /\
  attempt_once very_late_airborne
  = (Airborne, [EvArm; EvStartMission; EvInAir true]) /\
  attempt_takeoff (fun _ => very_late_airborne)
  = (Ok tt, [EvArm; EvStartMission; EvInAir true]) /\
  ~ (forall e pre elapsed rest,
       airborne e = true ->
       in_air e = pre ++ (true, elapsed) :: rest ->
       Forall waiting pre ->
       elapsed <= 1).
Proof.
  split; [reflexivity|]. split; [reflexivity|]. split; [reflexivity|].
  intros H.
  specialize (H very_late_airborne [] 3600 [] eq_refl eq_refl (Forall_nil _)).
  vm_compute in H. apply H. reflexivity.
Qed.

(** C4, amended. [attempt_takeoff] starts at most 5 attempts. An
    attempt calls arm, then start-mission, then reads the airborne
    stream: it ends airborne at the first airborne report, however late
    that report is examined, provided every report before it was examined
    within 1 second; it times out at the first not-airborne report
    examined later than 1 second. On an airborne attempt the sequencer
    returns at once. An attempt that times out, or in which arm or
    start-mission raises, is a failed attempt: the sequencer sleeps
    1 second and goes on. When no attempt ends airborne, exactly 5
    attempts and 5 sleeps are made, a [RuntimeError] is raised, and [run]
    propagates it to its caller. *)
Theorem takeoff_sequencer (env : nat -> attempt_env) :
  (attempts_made (snd (attempt_takeoff env)) <= 5)%nat /\
  (forall e,
     (airborne e = true <->
      arm e = None /\ start_mission e = None /\
      exists pre elapsed rest,
        in_air e = pre ++ (true, elapsed) :: rest /\ Forall waiting pre /\
        snd (attempt_once e)
        = EvArm :: EvStartMission :: not_yet pre ++ [EvInAir true]) /\
     (forall pre elapsed rest,
        arm e = None -> start_mission e = None ->
        in_air e = pre ++ (false, elapsed) :: rest -> Forall waiting pre ->
        1 < elapsed ->
        attempt_once e
        = (TimedOut,
           EvArm :: EvStartMission :: not_yet pre ++ [EvInAir false; EvTimeout])) /\
     (forall x, arm e = Some x ->
        attempt_once e = (Errored x, [EvArm; EvCaught x])) /\
     (forall x, arm e = None -> start_mission e = Some x ->
        attempt_once e = (Errored x, [EvArm; EvStartMission; EvCaught x]))) /\
  (forall k,
     (k < 5)%nat -> airborne (env k) = true ->
     (forall j, (j < k)%nat -> airborne (env j) = false) ->
     attempt_takeoff env
     = (Ok tt, failed_attempts env k ++ snd (attempt_once (env k))) /\
     attempts_made (snd (attempt_takeoff env)) = S k /\
     sleeps_taken (snd (attempt_takeoff env)) = k) /\
  ((forall k, (k < 5)%nat -> airborne (env k) = false) ->
   attempt_takeoff env = (Raise RuntimeError, failed_attempts env 5) /\
   attempts_made (snd (attempt_takeoff env)) = 5%nat /\
   sleeps_taken (snd (attempt_takeoff env)) = 5%nat /\
   forall w g,
     Controller.link w = env ->
     Loader.load (Controller.plan w) initial_globals = Ok g ->
     Controller.upload w = None ->
     fst (Controller.run w) = Controller.Propagated RuntimeError).
Proof.
  split; [apply takeoff_loop_bounded|].
  split; [intros e; split; [split|split; [|split]]|split].
  - unfold airborne, attempt_once.
    destruct (arm e); [discriminate|].
    destruct (start_mission e); [discriminate|].
    destruct (poll (in_air e)) as [r t] eqn:P. cbn [fst snd].
    intros Hr. assert (Hp : fst (poll (in_air e)) = Airborne).
    { rewrite P. destruct r; try discriminate. reflexivity. }
    destruct (poll_airborne_inv _ Hp) as (pre & x & rest & Hin & Hpre).
    repeat split. exists pre, x, rest. repeat split; try assumption.
    rewrite Hin, (poll_airborne_item pre rest x Hpre) in P.
    inversion P. reflexivity.
  - intros (Ha & Hs & pre & x & rest & Hin & Hpre & _).
    unfold airborne, attempt_once. rewrite Ha, Hs, Hin.
    rewrite (poll_airborne_item pre rest x Hpre). reflexivity.
  - intros pre x rest Ha Hs Hin Hpre Hlate.
    unfold attempt_once. rewrite Ha, Hs, Hin.
    rewrite (poll_late_item pre rest x Hpre Hlate). reflexivity.
  - intros x Ha. unfold attempt_once. rewrite Ha. reflexivity.
  - intros x Ha Hs. unfold attempt_once. rewrite Ha, Hs. reflexivity.
  - intros k Hk Hair Hbefore.
    assert (E : attempt_takeoff env
                = (Ok tt, failed_attempts env k ++ snd (attempt_once (env k)))).
    { unfold attempt_takeoff, failed_attempts.
      apply (takeoff_loop_airborne env (max_attempts - 0) 0 k);
        [exact Hk|exact Hair|exact Hbefore]. }
    rewrite E. cbn [snd]. split; [reflexivity|].
    unfold attempts_made, sleeps_taken, failed_attempts.
    rewrite !filter_app, !length_app.
    destruct (attempts_from_counts env k 0) as [Hc Hd].
    unfold attempts_made, sleeps_taken in Hc, Hd. rewrite Hc, Hd.
    destruct (attempt_once_counts (env k)) as [-> ->]. cbn. split; lia.
  - intros Hnever.
    assert (E : attempt_takeoff env = (Raise RuntimeError, failed_attempts env 5)).
    { unfold attempt_takeoff, failed_attempts.
      apply (takeoff_loop_exhausted env (max_attempts - 0) 0). exact Hnever. }
    rewrite E. cbn [snd]. split; [reflexivity|].
    destruct (attempts_from_counts env 5 0) as [Hc Hd].
    unfold failed_attempts. rewrite Hc, Hd.
    split; [reflexivity|]. split; [reflexivity|].
    intros w g Hlink Hload Hup. unfold Controller.run.
    rewrite Hload, Hup, Hlink, E. reflexivity.
Qed.

Lemma takeoff_sequencer_witness :
  fst (attempt_takeoff never_airborne) = Raise RuntimeError /\
  attempts_made (snd (attempt_takeoff never_airborne)) = 5%nat /\
  fst (attempt_takeoff airborne_at_third) = Ok tt /\
  attempts_made (snd (attempt_takeoff airborne_at_third)) = 3%nat /\
  sleeps_taken (snd (attempt_takeoff airborne_at_third)) = 2%nat.
Proof.
  pose proof (takeoff_sequencer never_airborne) as (_ & _ & _ & Hnever).
  pose proof (takeoff_sequencer airborne_at_third) as (_ & _ & Hthird & _).
  destruct Hnever as (E & Hn & _); [intros k _; reflexivity|].
  destruct (Hthird 2%nat) as (E' & Ha & Hs).
  - lia.
  - reflexivity.
  - intros j Hj. destruct j as [|[|j]]; [reflexivity|reflexivity|lia].
  - rewrite E, E'. repeat split; assumption.
Defined.

End TakeoffProperties.

(** ** Landing detection *)

Section LandingProperties.

Import Recorder.

Lemma settle_condition_numeric (g : globals) (a' b0 : Z)
    (lat lon alt elat elon ealt base : Q) :
  current_lat g = PNum lat -> current_lon g = PNum lon ->
  current_alt g = PNum alt -> inic_alt g = PNum base ->
  last_lat g = PNum elat -> last_lon g = PNum elon -> last_alt g = PNum ealt ->
  settle_condition g a' b0
  = Ok ((b0 =? 0)%Z &&
        (Qlt_bool (Qabs (lat - elat)) 0.01 &&
         (Qlt_bool (Qabs (lon - elon)) 0.01 &&
          (Qlt_bool (Qabs (alt - ealt - base)) 0.5 &&
           (umbral_espera <? a')%Z)))).
Proof.
  intros H1 H2 H3 H4 H5 H6 H7.
  unfold settle_condition, and_then, near, near_alt.
  rewrite H1, H2, H3, H4, H5, H6, H7.
  unfold sub, abs, lt_num. cbn [bind as_num].
  destruct (b0 =? 0)%Z; [|reflexivity]. cbn [andb].
  destruct (Qlt_bool (Qabs (lat - elat)) 0.01); [|reflexivity]. cbn [andb].
  destruct (Qlt_bool (Qabs (lon - elon)) 0.01); [|reflexivity]. cbn [andb].
  destruct (Qlt_bool (Qabs (alt - ealt - base)) 0.5); reflexivity.
Qed.


Lemma compose_row_numeric (g : globals) (odom : odometry) (t lat lon : Q) :
  current_lat g = PNum lat -> current_lon g = PNum lon ->
  (current_alt g = PNone \/ exists alt, current_alt g = PNum alt) ->
  exists rw, compose_row g odom t = Ok rw.
Proof.
  intros Hlat Hlon Halt. unfold compose_row. rewrite Hlat, Hlon. cbn.
  destruct Halt as [->|[alt ->]]; cbn.
  - eexists. reflexivity.
  - destruct (negb (Qeq_bool alt 0)); cbn; eexists; reflexivity.
Qed.

Lemma recorder_of_branch (t : bool) (r : recorder) :
  recorder_of (if t then Return r else Continue r) = r.
Proof. destruct t; reflexivity. Qed.

Lemma settle_condition_threshold (g : globals) (a' b0 : Z) :
  settle_condition g a' b0 = Ok true ->
  b0 = 0%Z /\ (umbral_espera < a')%Z.
Proof.
  unfold settle_condition, and_then. cbn [bind].
  destruct (Z.eqb_spec b0 0); [|discriminate].
  destruct (near (current_lat g) (last_lat g) 0.01) as [[|]|];
    cbn [bind]; try discriminate.
  destruct (near (current_lon g) (last_lon g) 0.01) as [[|]|];
    cbn [bind]; try discriminate.
  destruct (near_alt (current_alt g) (last_alt g) (inic_alt g) 0.5)
    as [[|]|]; cbn [bind]; try discriminate.
  intros E. inversion E as [Hthr]. apply Z.ltb_lt in Hthr. split; assumption.
Qed.

Lemma check_landing_counters (g : globals) (r : recorder) :
  counters_ok r -> counters_ok (recorder_of (check_landing g r)).
Proof.
  unfold check_landing, counters_ok. intros H.
  destruct (position_known g); [|exact H].
  destruct (settle_condition g (a r + 1) (b r)) as [settle|e] eqn:E.
  - rewrite recorder_of_branch. cbn [a b c]. destruct settle.
    + apply settle_condition_threshold in E. right. split; [reflexivity|lia].
    + destruct H as [H|[H H']]; [left; exact H|right; split; [exact H|lia]].
  - cbn [recorder_of a b c].
    destruct H as [H|[H H']]; [left; exact H|right; split; [exact H|lia]].
Qed.

Lemma odometry_body_counters (g : globals) (r : recorder) (o : odometry) :
  counters_ok r -> counters_ok (recorder_of (odometry_body g r o)).
Proof.
  intros H. unfold odometry_body.
  destruct (same_second _ _); [exact H|].
  destruct (compose_row g o _) as [rw|e]; [|exact H].
  apply check_landing_counters. exact H.
Qed.

Lemma run_telemetry_counters (msgs : list message) (g : globals) (r : recorder) :
  counters_ok r -> counters_ok (recorder_of (snd (run_telemetry g r msgs))).
Proof.
  revert g r. induction msgs as [|[p|o] msgs IH]; intros g r H; cbn.
  - exact H.
  - apply IH. exact H.
  - pose proof (odometry_body_counters g r o H) as H'.
    destruct (odometry_body g r o) as [r'|r'|e r']; cbn in *.
    + apply IH. exact H'.
    + exact H'.
    + exact H'.
Qed.

Lemma near_alt_regroup (alt ealt base tol : Q) :
  Qlt_bool (Qabs (alt - ealt - base)) tol = true
  <-> Qabs (alt - (ealt + base)) < tol.
Proof.
  rewrite Qlt_bool_true.
  assert (E : alt - ealt - base == alt - (ealt + base)) by ring.
  rewrite E. reflexivity.
Qed.

(** C1. On an accepted sample handled while the current latitude,
    longitude, altitude and the base altitude are known (and the expected
    end position is numeric), an unsettled recorder becomes settled
    exactly when the incremented sample count [a] exceeds 20 and the
    position is within 0.01 degrees of the expected latitude and
    longitude and within 0.5 m of expected altitude plus base altitude;
    it then records [c = a]. On every run of the recorder, whatever the
    positions, a settled recorder has a sample count above 20. *)
Theorem settles_exactly_when_near :
  (forall (g : globals) (r : recorder) (odom : odometry)
          (lat lon alt elat elon ealt base : Q),
     current_lat g = PNum lat -> current_lon g = PNum lon ->
     current_alt g = PNum alt -> inic_alt g = PNum base ->
     last_lat g = PNum elat -> last_lon g = PNum elon ->
     last_alt g = PNum ealt ->
     same_second (seconds (time_usec odom)) (last_sim_time r) = false ->
     b r = 0%Z ->
     exists r',
       odometry_body g r odom = Continue r' /\
       a r' = (a r + 1)%Z /\
       (settled r' = true <->
        (20 < a r')%Z /\
        Qabs (lat - elat) < 0.01 /\ Qabs (lon - elon) < 0.01 /\
        Qabs (alt - (ealt + base)) < 0.5) /\
       (settled r' = true -> c r' = a r')) /\
  (forall (g : globals) (msgs : list message),
     let r' := recorder_of (snd (run_telemetry g initial_recorder msgs)) in
     settled r' = true -> (20 < c r' <= a r')%Z).
Proof.
  split.
  - intros g r odom lat lon alt elat elon ealt base
           Hlat Hlon Halt Hbase Helat Helon Healt Hnew Hb.
    unfold odometry_body. rewrite Hnew.
    destruct (compose_row_numeric g odom (seconds (time_usec odom)) lat lon
                Hlat Hlon (or_intror (ex_intro _ alt Halt))) as [rw ->].
    unfold check_landing, position_known. cbn [a b c last_sim_time log].
    rewrite Hlat, Hlon, Halt, Hbase. cbn [is_not_none andb].
    rewrite (settle_condition_numeric g (a r + 1) (b r)
               lat lon alt elat elon ealt base) by assumption.
    rewrite Hb. cbn [Z.eqb andb].
    destruct (Qlt_bool (Qabs (lat - elat)) 0.01) eqn:E1;
    destruct (Qlt_bool (Qabs (lon - elon)) 0.01) eqn:E2;
    destruct (Qlt_bool (Qabs (alt - ealt - base)) 0.5) eqn:E3;
    destruct (umbral_espera <? a r + 1)%Z eqn:E4; cbn [andb Z.eqb];
    rewrite ?Z.sub_diag; cbn [Z.ltb Z.compare umbral_espera andb];
    eexists; (split; [reflexivity|]); cbn [a b c settled];
    (split; [reflexivity|]);
    try (split; [split; [discriminate|]|discriminate]);
    try (intros (H4 & H1 & H2 & H3);
         apply Qlt_bool_true in H1; apply Qlt_bool_true in H2;
         apply near_alt_regroup in H3; apply Z.ltb_lt in H4;
         unfold umbral_espera, datos_por_segundo in E4; cbn in E4;
         congruence).
    split; [|reflexivity]. split; [|reflexivity]. intros _.
    apply Qlt_bool_true in E1. apply Qlt_bool_true in E2.
    apply near_alt_regroup in E3. apply Z.ltb_lt in E4.
    repeat split; assumption.
  - intros g msgs r' Hs. subst r'.
    pose proof (run_telemetry_counters msgs g initial_recorder
                  (or_introl eq_refl)) as [H0|[_ H1]].
    + unfold settled in Hs. rewrite H0 in Hs. discriminate.
    + exact H1.
Qed.

Lemma settles_exactly_when_near_witness :
  exists r',
    odometry_body near_end_globals before_threshold (sample_at 20) = Continue r' /\
    settled r' = true /\ a r' = 21%Z /\ c r' = 21%Z.
Proof.
  destruct (proj1 settles_exactly_when_near
              near_end_globals before_threshold (sample_at 20)
              11 21 150.2 11 21 50 100)
    as (r' & Hstep & Ha & Hiff & Hc); try reflexivity.
  exists r'. split; [exact Hstep|].
  assert (Hs : settled r' = true).
  { apply Hiff. rewrite Ha. repeat split. }
  split; [exact Hs|]. split; [exact Ha|]. rewrite (Hc Hs). exact Ha.
Defined.



Lemma run_telemetry_app (pre rest : list message) (g : globals) (r : recorder) :
  run_telemetry g r (pre ++ rest) =
  match run_telemetry g r pre with
  | (g1, Continue r1) => run_telemetry g1 r1 rest
  | out => out
  end.
Proof.
  revert g r. induction pre as [|[p|o] pre IH]; intros g r; cbn.
  - reflexivity.
  - apply IH.
  - destruct (odometry_body g r o); [apply IH|reflexivity|reflexivity].
Qed.

Lemma run_telemetry_return_inv (msgs : list message) (g g' : globals)
    (r r' : recorder) :
  run_telemetry g r msgs = (g', Return r') ->
  exists pre o rest r1,
    msgs = pre ++ Odometry o :: rest /\
    run_telemetry g r pre = (g', Continue r1) /\
    odometry_body g' r1 o = Return r'.
Proof.
  revert g r. induction msgs as [|[p|o] msgs IH]; intros g r; cbn.
  - discriminate.
  - intros H. destruct (IH _ _ H) as (pre & o & rest & r1 & -> & Hpre & Hret).
    exists (Position p :: pre), o, rest, r1. repeat split; assumption.
  - destruct (odometry_body g r o) as [r2|r2|e r2] eqn:E.
    + intros H. destruct (IH _ _ H) as (pre & o' & rest & r1 & -> & Hpre & Hret).
      exists (Odometry o :: pre), o', rest, r1. cbn. rewrite E.
      repeat split; assumption.
    + intros H. inversion H; subst.
      exists [], o, msgs, r. repeat split. exact E.
    + discriminate.
Qed.



End LandingProperties.

(** ** De-duplication and ordering of the rows *)

Section RowProperties.

Import Recorder.

Lemma kept_after_position_step (g : globals) (r r' : recorder) (o : odometry) :
  kept_after_position g r ->
  odometry_body g r o = Continue r' ->
  kept_after_position g r'.
Proof.
  intros [[(Hlat & Hlon & Halt) Hnone]|Hnum] Hstep; [|right; exact Hnum].
  left. split; [repeat split; assumption|].
  unfold odometry_body in Hstep. rewrite Hnone in Hstep. cbn in Hstep.
  unfold compose_row in Hstep. rewrite Hlat in Hstep. cbn in Hstep.
  discriminate.
Qed.

Lemma kept_after_position_run (msgs : list message) (g g' : globals)
    (r r' : recorder) :
  kept_after_position g r ->
  run_telemetry g r msgs = (g', Continue r') ->
  kept_after_position g' r'.
Proof.
  revert g r. induction msgs as [|[p|o] msgs IH]; intros g r Hinv; cbn.
  - intros H. inversion H; subst. exact Hinv.
  - apply IH. right. exists (latitude_deg p), (longitude_deg p),
      (absolute_altitude_m p). repeat split.
  - destruct (odometry_body g r o) as [r1|r1|e r1] eqn:E; try discriminate.
    apply IH. exact (kept_after_position_step g r r1 o Hinv E).
Qed.

Lemma reachable_kept_after_position (g : globals) (r : recorder) :
  reachable g r -> kept_after_position g r.
Proof.
  intros (g0 & msgs & Hlat & Hlon & Halt & Hrun).
  apply (kept_after_position_run msgs g0 g initial_recorder r); [|exact Hrun].
  left. repeat split; assumption.
Qed.

Lemma check_landing_log (g : globals) (r : recorder) :
  log (recorder_of (check_landing g r)) = log r /\
  last_sim_time (recorder_of (check_landing g r)) = last_sim_time r.
Proof.
  unfold check_landing. destruct (position_known g); [|split; reflexivity].
  destruct (settle_condition g (a r + 1) (b r)); [|split; reflexivity].
  cbv zeta. rewrite recorder_of_branch. split; reflexivity.
Qed.

(** C5. In a state the loops can reach, with a previously kept sample:
    an odometry sample whose time in seconds rounds to the same whole
    second as the kept one leaves the recorder unchanged (no row, same
    last simulated time); any other sample appends exactly one row and
    becomes the kept sample. *)
Theorem same_second_dropped (g : globals) (r : recorder) (o : odometry)
    (t : Q)
    (Hreach : reachable g r)
    (Hkept : last_sim_time r = Some t) :
  (round (seconds (time_usec o)) 0 == round t 0 ->
   odometry_body g r o = Continue r) /\
  (~ round (seconds (time_usec o)) 0 == round t 0 ->
   exists rw,
     compose_row g o (seconds (time_usec o)) = Ok rw /\
     log (recorder_of (odometry_body g r o))
     = log r ++ [mkEntry (seconds (time_usec o)) rw] /\
     last_sim_time (recorder_of (odometry_body g r o))
     = Some (seconds (time_usec o))).
Proof.
  split.
  - intros Heq. unfold odometry_body, same_second. rewrite Hkept.
    apply Qeq_bool_iff in Heq. rewrite Heq. reflexivity.
  - intros Hneq. unfold odometry_body, same_second. rewrite Hkept.
    destruct (Qeq_bool _ _) eqn:E;
      [exfalso; apply Hneq; apply Qeq_bool_iff; exact E|].
    destruct (reachable_kept_after_position g r Hreach)
      as [[_ Hnone]|(lat & lon & alt & Hlat & Hlon & Halt)];
      [congruence|].
    destruct (compose_row_numeric g o (seconds (time_usec o)) lat lon
                Hlat Hlon (or_intror (ex_intro _ alt Halt))) as [rw Hrw].
    rewrite Hrw. exists rw. split; [reflexivity|].
    match goal with
    | |- context [check_landing g ?r1] =>
        destruct (check_landing_log g r1) as [-> ->]
    end.
    split; reflexivity.
Qed.

Lemma same_second_dropped_witness :
  odometry_body (fst after_first_row) (snd after_first_row) sample_1_4
  = Continue (snd after_first_row) /\
  exists rw,
    log (recorder_of
           (odometry_body (fst after_first_row) (snd after_first_row)
                          (sample_at 2)))
    = log (snd after_first_row) ++ [mkEntry (seconds 2000000) rw].
Proof.
  assert (Hreach : reachable (fst after_first_row) (snd after_first_row)).
  { exists loaded_globals, first_row_messages. repeat split. }
  assert (Hkept : last_sim_time (snd after_first_row) = Some (seconds 1000000))
    by reflexivity.
  split.
  - apply (proj1 (same_second_dropped _ _ sample_1_4 _ Hreach Hkept)).
    reflexivity.
  - destruct (proj2 (same_second_dropped _ _ (sample_at 2) _ Hreach Hkept))
      as (rw & _ & Hlog & _).
    + intros H. vm_compute in H. discriminate.
    + exists rw. rewrite Hlog. reflexivity.
Defined.

Lemma round_half_even_proper (x y : Q) :
  x == y -> round_half_even x = round_half_even y.
Proof.
  intros E. unfold round_half_even.
  assert (Hf : Qfloor x = Qfloor y) by (apply Qfloor_comp; exact E).
  rewrite Hf.
  assert (Hc : Qcompare (x - inject_Z (Qfloor y)) (1 # 2)
               = Qcompare (y - inject_Z (Qfloor y)) (1 # 2)).
  { apply Qcompare_comp; [|reflexivity].
    apply Qplus_comp; [exact E|reflexivity]. }
  rewrite Hc. reflexivity.
Qed.

Lemma round_half_even_monotone (x y : Q) :
  x <= y -> (round_half_even x <= round_half_even y)%Z.
Proof.
  intros Hle. unfold round_half_even.
  pose proof (Qfloor_resp_le x y Hle) as Hf.
  pose proof (Qfloor_le x) as Hx0. pose proof (Qlt_floor x) as Hx1.
  pose proof (Qfloor_le y) as Hy0. pose proof (Qlt_floor y) as Hy1.
  destruct (Z.eq_dec (Qfloor x) (Qfloor y)) as [Heq|Hne].
  - rewrite <- Heq in *.
    destruct (Qcompare_spec (x - inject_Z (Qfloor x)) (1 # 2)) as [Ex|Ex|Ex];
    destruct (Qcompare_spec (y - inject_Z (Qfloor x)) (1 # 2)) as [Ey|Ey|Ey];
    try destruct (Z.even (Qfloor x)); try lia; exfalso; lra.
  - assert (Hlt : (Qfloor x + 1 <= Qfloor y)%Z) by lia.
    destruct (Qcompare (x - inject_Z (Qfloor x)) (1 # 2));
    destruct (Qcompare (y - inject_Z (Qfloor y)) (1 # 2));
    try destruct (Z.even (Qfloor x)); try destruct (Z.even (Qfloor y)); lia.
Qed.

Lemma round_0 (x : Q) : round x 0 == inject_Z (round_half_even x).
Proof.
  unfold round. cbn [Z.of_nat Z.pow].
  assert (E : x * inject_Z 1 == x) by ring.
  rewrite (round_half_even_proper _ _ E). field.
Qed.

Lemma round_0_monotone (x y : Q) : x <= y -> round x 0 <= round y 0.
Proof.
  intros H. rewrite !round_0. rewrite <- Zle_Qle.
  apply round_half_even_monotone. exact H.
Qed.

Lemma seconds_monotone (u v : Z) : (u <= v)%Z -> seconds u <= seconds v.
Proof.
  intros H. unfold seconds. apply Qmult_le_compat_r.
  - rewrite <- Zle_Qle. exact H.
  - discriminate.
Qed.

Lemma StronglySorted_snoc (l : list Q) (x : Q) :
  StronglySorted Qlt l -> Forall (fun y => y < x) l ->
  StronglySorted Qlt (l ++ [x]).
Proof.
  induction 1 as [|y l Hs IH Hy]; intros Hall; cbn.
  - constructor; constructor.
  - inversion Hall as [|? ? Hyx Hl]; subst. constructor.
    + apply IH. exact Hl.
    + apply Forall_app. split; [exact Hy|]. constructor; [exact Hyx|constructor].
Qed.

Lemma ordered_so_far_run (msgs : list message) (g : globals) (r : recorder) :
  ordered_so_far r msgs ->
  StronglySorted Qlt
    (row_seconds (recorder_of (snd (run_telemetry g r msgs)))).
Proof.
  revert g r. induction msgs as [|[p|o] msgs IH]; intros g r Hinv.
  - exact (proj1 Hinv).
  - cbn. apply IH. exact Hinv.
  - destruct Hinv as (Hsorted & Htimes & Hlast). cbn in Htimes.
    apply StronglySorted_inv in Htimes. destruct Htimes as [Htimes Hhead].
    cbn [run_telemetry]. unfold odometry_body.
    set (s := seconds (time_usec o)) in *.
    destruct (same_second s (last_sim_time r)) eqn:Esame.
    { apply IH. split; [exact Hsorted|]. split; [exact Htimes|].
      destruct (last_sim_time r) as [t|]; [|exact Hlast].
      destruct Hlast as [Hrows Hfuture]. split; [exact Hrows|].
      cbn in Hfuture. inversion Hfuture; assumption. }
    destruct (compose_row g o s) as [rw|e]; [|exact Hsorted].
    cbn [a b c last_sim_time log].
    set (r2 := mkRecorder (a r) (b r) (c r) (Some s) (log r ++ [mkEntry s rw])).
    assert (Hbelow : Forall (fun e => whole_second e < round s 0) (log r)).
    { destruct (last_sim_time r) as [t|] eqn:Et.
      - destruct Hlast as [Hrows Hfuture]. cbn in Hfuture.
        inversion Hfuture as [|? ? Hts _]; subst.
        assert (Hlt : round t 0 < round s 0).
        { unfold same_second in Esame.
          destruct (Qle_lt_or_eq _ _ (round_0_monotone t s Hts))
            as [Hl|He]; [exact Hl|].
          apply Qeq_sym, Qeq_bool_iff in He. congruence. }
        eapply Forall_impl; [|exact Hrows].
        intros e He. cbn in He. eapply Qle_lt_trans; eassumption.
      - rewrite Hlast. constructor. }
    assert (Hsorted2 : StronglySorted Qlt (row_seconds r2)).
    { unfold row_seconds, r2. cbn [log]. rewrite map_app. cbn [map].
      apply StronglySorted_snoc; [exact Hsorted|].
      apply Forall_map. exact Hbelow. }
    destruct (check_landing_log g r2) as [Hlog Hkept].
    destruct (check_landing g r2) as [r3|r3|e r3] eqn:Ecl;
      cbn [recorder_of] in Hlog, Hkept; cbn [snd recorder_of];
      try (unfold row_seconds; rewrite Hlog; exact Hsorted2).
    apply IH. unfold ordered_so_far, row_seconds. rewrite Hlog, Hkept.
    split; [exact Hsorted2|]. split; [exact Htimes|].
    cbn [last_sim_time log r2]. split.
    + apply Forall_app. split.
      * eapply Forall_impl; [|exact Hbelow].
        intros e He. cbn in He. apply Qlt_le_weak. exact He.
      * constructor; [apply Qle_refl|constructor].
    + eapply Forall_impl; [|exact Hhead].
      intros u Hu. cbn in Hu. apply seconds_monotone. exact Hu.
Qed.

Lemma round_monotone (x y : Q) (ndigits : nat) :
  x <= y -> round x ndigits <= round y ndigits.
Proof.
  intros H. unfold round.
  assert (Hpos : (0 < 10 ^ Z.of_nat ndigits)%Z)
    by (apply Z.pow_pos_nonneg; lia).
  assert (Hscale : 0 < inject_Z (10 ^ Z.of_nat ndigits)).
  { change 0 with (inject_Z 0). rewrite <- Zlt_Qlt. exact Hpos. }
  unfold Qdiv. apply Qmult_le_compat_r.
  - rewrite <- Zle_Qle. apply round_half_even_monotone.
    apply Qmult_le_compat_r; [exact H|apply Qlt_le_weak; exact Hscale].
  - apply Qlt_le_weak, Qinv_lt_0_compat. exact Hscale.
Qed.

Lemma compose_row_SimTime (g : globals) (o : odometry) (t : Q) (rw : row) :
  compose_row g o t = Ok rw -> SimTime rw = round t 2.
Proof.
  unfold compose_row.
  destruct (round_val (current_lat g) 7); [|discriminate].
  destruct (round_val (current_lon g) 7); [|discriminate].
  cbn [bind].
  destruct (if truthy (current_alt g) then _ else _); [|discriminate].
  cbn [bind]. intros H. inversion H. reflexivity.
Qed.

Lemma odometry_body_entry (g : globals) (r : recorder) (o : odometry) :
  log (recorder_of (odometry_body g r o)) = log r \/
  exists rw,
    SimTime rw = round (seconds (time_usec o)) 2 /\
    log (recorder_of (odometry_body g r o))
    = log r ++ [mkEntry (seconds (time_usec o)) rw].
Proof.
  unfold odometry_body.
  destruct (same_second _ _); [left; reflexivity|].
  destruct (compose_row g o _) as [rw|e] eqn:E; [|left; reflexivity].
  right. exists rw. split; [exact (compose_row_SimTime _ _ _ _ E)|].
  match goal with
  | |- context [check_landing g ?r1] =>
      destruct (check_landing_log g r1) as [-> _]
  end.
  reflexivity.
Qed.

Lemma run_telemetry_entries (msgs seen : list message) (g : globals)
    (r : recorder) :
  Forall (entry_from (seen ++ msgs)) (log r) ->
  Forall (entry_from (seen ++ msgs))
         (log (recorder_of (snd (run_telemetry g r msgs)))).
Proof.
  revert seen g r. induction msgs as [|m msgs IH]; intros seen g r Hall.
  - exact Hall.
  - assert (Hshift : seen ++ m :: msgs = (seen ++ [m]) ++ msgs)
      by (rewrite <- app_assoc; reflexivity).
    destruct m as [p|o]; cbn [run_telemetry].
    + rewrite Hshift in *. apply IH. exact Hall.
    + assert (Hstep : Forall (entry_from (seen ++ Odometry o :: msgs))
                             (log (recorder_of (odometry_body g r o)))).
      { destruct (odometry_body_entry g r o) as [->|(rw & Ht & ->)];
          [exact Hall|].
        apply Forall_app. split; [exact Hall|].
        constructor; [|constructor]. split; [exact Ht|].
        exists o. split; [|reflexivity].
        apply in_or_app. right. left. reflexivity. }
      destruct (odometry_body g r o) as [r1|r1|e r1];
        cbn [recorder_of snd] in *; try exact Hstep.
      rewrite Hshift in *. apply IH. exact Hstep.
Qed.

Lemma written_times_ordered (msgs : list message) (l : list entry) :
  Forall (entry_from msgs) l ->
  StronglySorted Qlt (map whole_second l) ->
  StronglySorted Qle (map (fun e => SimTime (written e)) l).
Proof.
  induction l as [|x l IH]; intros Hall Hs; cbn; [constructor|].
  inversion Hall as [|? ? Hx Hl]; subst.
  cbn in Hs. apply StronglySorted_inv in Hs. destruct Hs as [Hs Hhd].
  constructor; [apply IH; assumption|].
  apply Forall_forall. intros t Ht. apply in_map_iff in Ht.
  destruct Ht as (e & <- & He).
  rewrite Forall_forall in Hhd, Hl.
  assert (Hlt : whole_second x < whole_second e)
    by (apply Hhd; apply in_map; exact He).
  destruct Hx as [-> _]. destruct (Hl e He) as [-> _].
  apply round_monotone.
  destruct (Qlt_le_dec (sample_time e) (sample_time x)) as [Hback|Hfwd];
    [|exact Hfwd].
  exfalso. unfold whole_second in Hlt.
  apply (Qlt_not_le _ _ Hlt). apply round_0_monotone.
  apply Qlt_le_weak. exact Hback.
Qed.

(** C6, as stated, fails twice over. On a stream whose timestamps go
    back from second 5 to second 3 both samples are written and the
    whole seconds of the written SimTime are 5 then 3. On the stream
    1.496 s, 1.500001 s, whose timestamps do not decrease, both samples
    are written (their whole seconds are 1 and 2) with the same SimTime
    150/100, whose whole second is 2 both times. *)
Lemma rows_not_increasing_counterexample :
  ~ Sorted Qlt
      (written_seconds
         (recorder_of
            (snd (run_telemetry loaded_globals initial_recorder
                                backwards_messages)))) /\
  StronglySorted Z.le (odometry_times rounding_messages) /\
  row_times
    (recorder_of
       (snd (run_telemetry loaded_globals initial_recorder rounding_messages)))
  = [150 # 100; 150 # 100] /\
  ~ Sorted Qlt
      (written_seconds
         (recorder_of
            (snd (run_telemetry loaded_globals initial_recorder
                                rounding_messages)))).
Proof.
  split; [|split; [|split]].
  - intros H. vm_compute in H.
    inversion H as [|x l _ Hhd]; subst.
    inversion Hhd as [|y l' Hlt]; subst.
    vm_compute in Hlt. discriminate.
  - repeat constructor; intros H; discriminate H.
  - vm_compute. reflexivity.
  - intros H. vm_compute in H.
    inversion H as [|x l _ Hhd]; subst.
    inversion Hhd as [|y l' Hlt]; subst.
    vm_compute in Hlt. discriminate.
Qed.

(** C6, amended. On every odometry stream whose timestamps are
    non-decreasing: each row written carries as SimTime the time of one
    of the samples, rounded to 2 decimals; the SimTime values of the rows
    are in non-decreasing order; and the whole seconds of the samples
    the rows were composed from (the rounding of the unrounded time
    that the de-duplication compares) are strictly increasing, each
    greater than all earlier ones. *)
Theorem rows_increasing_on_monotone_stream (g : globals) (msgs : list message) :
  StronglySorted Z.le (odometry_times msgs) ->
  let r := recorder_of (snd (run_telemetry g initial_recorder msgs)) in
  Forall (entry_from msgs) (log r) /\
  StronglySorted Qle (row_times r) /\
  StronglySorted Qlt (row_seconds r) /\
  Sorted Qlt (row_seconds r).
Proof.
  intros Htimes r.
  assert (H : StronglySorted Qlt (row_seconds r)).
  { apply ordered_so_far_run. split; [constructor|]. split; [exact Htimes|].
    reflexivity. }
  assert (He : Forall (entry_from msgs) (log r)).
  { apply (run_telemetry_entries msgs [] g initial_recorder). constructor. }
  split; [exact He|]. split.
  - exact (written_times_ordered msgs (log r) He H).
  - split; [exact H|apply StronglySorted_Sorted; exact H].
Qed.

Lemma rows_increasing_on_monotone_stream_witness :
  StronglySorted Qle
    (row_times
       (recorder_of
          (snd (run_telemetry loaded_globals initial_recorder
                              forwards_messages)))) /\
  Sorted Qlt
    (row_seconds
       (recorder_of
          (snd (run_telemetry loaded_globals initial_recorder
                              forwards_messages)))).
Proof.
  assert (Htimes : StronglySorted Z.le (odometry_times forwards_messages))
    by (repeat constructor; intros H; discriminate H).
  destruct (rows_increasing_on_monotone_stream loaded_globals
              forwards_messages Htimes) as (_ & Ht & _ & Hs).
  split; [exact Ht|exact Hs].
Defined.

(** C8 (code defect). An odometry sample that arrives before the first
    position sample makes [log_odometry] raise [TypeError] while it
    composes the row: [round(current_lat, 7)] is evaluated on [None]. No
    row is written, the recorder task ends with the exception and the
    race ends. *)
Theorem sample_before_position_raises :
  odometry_body loaded_globals initial_recorder (sample_at 1)
  = Raised TypeError (mkRecorder 1 0 1 (Some (seconds 1000000)) []) /\
  Controller.race loaded_globals [Odometry (sample_at 1)]
  = Some (Controller.mkRaceEnd Controller.CancelRequested
                               (Controller.Failed TypeError) [] true).
Proof. split; reflexivity. Qed.

(** C10. A composed row has a null [Alt] whenever the latest altitude is
    exactly zero (or unknown); its [Alt] is a number only when the latest
    altitude is known and not zero, and is then that altitude rounded to
    3 decimals. The row a loop step appends is the composed one. *)
Theorem zero_altitude_is_null (g : globals) (r : recorder) (o : odometry)
    (rw : row)
    (Hrow : compose_row g o (seconds (time_usec o)) = Ok rw) :
  (forall alt, current_alt g = PNum alt -> alt == 0 -> Alt rw = None) /\
  (current_alt g = PNone -> Alt rw = None) /\
  (forall x, Alt rw = Some x ->
     exists alt,
       as_num (current_alt g) = Ok alt /\ ~ alt == 0 /\ x = round alt 3) /\
  (log (recorder_of (odometry_body g r o)) = log r \/
   log (recorder_of (odometry_body g r o))
   = log r ++ [mkEntry (seconds (time_usec o)) rw]).
Proof.
  assert (Hstep : log (recorder_of (odometry_body g r o)) = log r \/
                  log (recorder_of (odometry_body g r o))
                  = log r ++ [mkEntry (seconds (time_usec o)) rw]).
  { unfold odometry_body.
    destruct (same_second _ _); [left; reflexivity|].
    rewrite Hrow. right. cbn [a b c last_sim_time log].
    match goal with
    | |- context [check_landing g ?r1] =>
        destruct (check_landing_log g r1) as [-> _]
    end.
    reflexivity. }
  unfold compose_row in Hrow.
  destruct (round_val (current_lat g) 7) as [lat|]; [|discriminate].
  destruct (round_val (current_lon g) 7) as [lon|]; [|discriminate].
  cbn [bind] in Hrow.
  split; [|split; [|split; [|exact Hstep]]].
  - intros alt Halt Hzero. rewrite Halt in Hrow. cbn [truthy] in Hrow.
    apply Qeq_bool_iff in Hzero. rewrite Hzero in Hrow. cbn in Hrow.
    inversion Hrow. reflexivity.
  - intros Halt. rewrite Halt in Hrow. cbn in Hrow. inversion Hrow. reflexivity.
  - intros x Hx. destruct (truthy (current_alt g)) eqn:Et.
    + unfold round_val in Hrow.
      destruct (current_alt g) as [|flag|alt|str|l|d]; cbn in Et |- *;
        try discriminate; cbn [bind as_num] in Hrow;
        inversion Hrow; subst rw; cbn [Alt] in Hx; inversion Hx; subst x.
      * subst flag. exists 1. repeat split. discriminate.
      * exists alt. repeat split. intros Hz. apply Qeq_bool_iff in Hz.
        rewrite Hz in Et. discriminate.
    + cbn [bind] in Hrow. inversion Hrow; subst rw. discriminate.
Qed.

Lemma zero_altitude_is_null_witness :
  exists rw,
    compose_row sea_level_globals (sample_at 1) (seconds 1000000) = Ok rw /\
    Alt rw = None.
Proof.
  eexists. split; [reflexivity|].
  refine (proj1 (zero_altitude_is_null sea_level_globals initial_recorder
                   (sample_at 1) _ eq_refl) 0 eq_refl _).
  reflexivity.
Defined.

End RowProperties.

(** ** The race of the two loops *)

Section RaceProperties.

Import Recorder Controller.

(** C9, as stated, fails: when the recorder completes, [run] requests
    the cancellation of the position loop and returns; the task is left
    cancel-requested, not cancelled. *)
Lemma sampler_not_awaited_counterexample :
  option_map odometry_task (race loaded_globals landing_messages)
  = Some Finished /\
  option_map gps_task (race loaded_globals landing_messages)
  = Some CancelRequested /\
  option_map gps_task (race loaded_globals landing_messages)
  <> Some Cancelled.
Proof.
  assert (H : option_map gps_task (race loaded_globals landing_messages)
              = Some CancelRequested) by (vm_compute; reflexivity).
  split; [vm_compute; reflexivity|]. split; [exact H|].
  rewrite H. discriminate.
Qed.

(** C9, amended. When one of the two loops completes, [run] requests
    the cancellation of the position loop without awaiting it, closes the
    log and returns; the rows of the log are those written up to the
    recorder's completion, whatever telemetry arrives later. *)
Theorem race_cancels_without_awaiting (g : globals) (msgs : list message)
    (e : race_end)
    (Hrace : race g msgs = Some e) :
  gps_task e = CancelRequested /\
  (odometry_task e = Finished \/ exists x, odometry_task e = Failed x) /\
  csv_closed e = true /\
  csv_rows e
  = log (recorder_of (snd (run_telemetry g initial_recorder msgs))) /\
  (forall more, race g (msgs ++ more) = Some e).
Proof.
  unfold race, wait_first_completed in *.
  destruct (run_telemetry g initial_recorder msgs) as [g' out] eqn:Erun.
  assert (Hmore : forall more,
            out <> Continue (recorder_of out) ->
            run_telemetry g initial_recorder (msgs ++ more) = (g', out)).
  { intros more Hout. rewrite run_telemetry_app, Erun.
    destruct out; [exfalso; apply Hout; reflexivity|reflexivity|reflexivity]. }
  destruct out as [r|r|x r]; [discriminate|..];
    inversion Hrace; subst e; cbn;
    (repeat split; [first [left; reflexivity|right; eexists; reflexivity]|]);
    intros more; rewrite Hmore by discriminate; reflexivity.
Qed.

Lemma race_cancels_without_awaiting_witness :
  exists e,
    race loaded_globals landing_messages = Some e /\
    gps_task e = CancelRequested /\
    List.length (csv_rows e) = 41%nat /\
    race loaded_globals (landing_messages ++ [Odometry (sample_at 60)]) = Some e.
Proof.
  destruct (race loaded_globals landing_messages) as [e|] eqn:E;
    [|vm_compute in E; discriminate].
  exists e. split; [reflexivity|].
  destruct (race_cancels_without_awaiting loaded_globals landing_messages e E)
    as (Hgps & _ & _ & Hrows & Hmore).
  split; [exact Hgps|]. split; [|apply Hmore].
  rewrite Hrows. vm_compute. reflexivity.
Defined.

End RaceProperties.

(** ** Further properties of the mission loader *)

Section LoaderEdges.

Import Loader.

(** X1. A document whose item list is empty (or otherwise false), or
    whose item list is a non-empty list while the home position is
    absent, null or empty, is loaded without error and leaves every
    module-level variable as it was. *)
Theorem loader_skips_without_items_or_home
    (g : globals) (mission_json mission items home : pyval)
    (Hmission : getitem_str mission_json "mission" = Ok mission)
    (Hitems : getitem_str mission "items" = Ok items)
    (Hhome : dict_get mission "plannedHomePosition" PNone = Ok home)
    (Hskip : truthy items = false \/
             (exists x l, items = PList (x :: l)) /\ truthy home = false) :
  load (Parsed mission_json) g = Ok g.
Proof.
  unfold load, read_plan, expected_end. cbn [bind].
  rewrite Hmission. cbn [bind]. rewrite Hitems. cbn [bind].
  rewrite Hhome. cbn [bind].
  destruct Hskip as [Hfalse|[(x & l & ->) Hfalse]].
  - rewrite Hfalse. reflexivity.
  - cbn [truthy getitem_last bind]. rewrite Hfalse, andb_false_r. reflexivity.
Qed.

Lemma loader_skips_without_items_or_home_witness :
  load (Parsed (plan_doc [] (Some (home_position 10 20 100)))) initial_globals
  = Ok initial_globals /\
  load (Parsed (plan_doc [waypoint 16 waypoint_params] (Some (PList []))))
       initial_globals
  = Ok initial_globals.
Proof.
  split.
  - eapply loader_skips_without_items_or_home; try reflexivity.
    left. reflexivity.
  - eapply loader_skips_without_items_or_home; try reflexivity.
    right. split; [eexists; eexists; reflexivity|reflexivity].
Defined.

Lemma load_front_irrelevant (g : globals) (front : list pyval)
    (last_wp : pyval) (home : option pyval) :
  load (Parsed (plan_doc (front ++ [last_wp]) home)) g
  = load (Parsed (plan_doc [last_wp] home)) g.
Proof.
  unfold load, read_plan, expected_end, plan_doc.
  cbn [bind getitem_str lookup String.eqb Ascii.eqb Bool.eqb app dict_get].
  assert (Ht : truthy (PList (front ++ [last_wp])) = true)
    by (destruct front; reflexivity).
  rewrite Ht, getitem_last_snoc. reflexivity.
Qed.

(** X2. The loader looks at the last item only: two documents that
    differ in the items before the last one are loaded alike. *)
Theorem loader_reads_last_item_only
    (g : globals) (front front' : list pyval) (last_wp : pyval)
    (home : option pyval) :
  load (Parsed (plan_doc (front ++ [last_wp]) home)) g
  = load (Parsed (plan_doc (front' ++ [last_wp]) home)) g.
Proof.
  rewrite (load_front_irrelevant g front), (load_front_irrelevant g front').
  reflexivity.
Qed.

(** X3. With a home position present, a last item that is not
    return-to-launch and whose params have fewer than 7 entries makes the
    loader raise [IndexError]. *)
Theorem loader_short_params_raise
    (g : globals) (front params : list pyval) (command : Z)
    (hlat hlon halt : pyval)
    (Hcommand : command <> 20%Z)
    (Hshort : (List.length params < 7)%nat) :
  load (Parsed (plan_doc (front ++ [waypoint command params])
                         (Some (PList [hlat; hlon; halt])))) g
  = Raise IndexError.
Proof.
  rewrite (load_front_irrelevant g front).
  unfold load, read_plan, expected_end, plan_doc, waypoint.
  cbn [bind getitem_str lookup String.eqb Ascii.eqb Bool.eqb app dict_get
       truthy getitem_last last andb].
  rewrite eq_int_inject. unfold rtl_command.
  destruct (Z.eqb_spec command 20) as [E|_]; [contradiction|].
  cbn [bind getitem_int].
  destruct (nth_error params 4) as [p4|] eqn:E4; [|reflexivity].
  destruct (nth_error params 5) as [p5|] eqn:E5; [|reflexivity].
  destruct (nth_error params 6) as [p6|] eqn:E6; [|reflexivity].
  assert (Hlen : (6 < List.length params)%nat)
    by (apply nth_error_Some; congruence).
  lia.
Qed.

Lemma loader_short_params_raise_witness :
  load (Parsed (plan_doc [waypoint 22 [PNum 15]]
                         (Some (PList [PNum 10; PNum 20; PNum 100]))))
       initial_globals
  = Raise IndexError.
Proof.
  apply (loader_short_params_raise initial_globals [] [PNum 15] 22).
  - discriminate.
  - cbn. lia.
Defined.

(** X4. Whatever the document, a successful load never touches the
    current position: only the expected end position and the base
    altitude can change. *)
Theorem loader_keeps_current_position
    (f : plan_file) (g g' : globals)
    (Hload : load f g = Ok g') :
  current_lat g' = current_lat g /\
  current_lon g' = current_lon g /\
  current_alt g' = current_alt g.
Proof.
  unfold load, expected_end in Hload.
  destruct (read_plan f) as [mj|]; [|discriminate]. cbn [bind] in Hload.
  destruct (getitem_str mj "mission") as [m|]; [|discriminate].
  cbn [bind] in Hload.
  destruct (getitem_str m "items") as [items|]; [|discriminate].
  cbn [bind] in Hload.
  destruct (dict_get m "plannedHomePosition" PNone) as [home|]; [|discriminate].
  cbn [bind] in Hload.
  destruct (if truthy items then getitem_last items else Ok PNone)
    as [last_wp|]; [|discriminate].
  cbn [bind] in Hload.
  destruct (truthy last_wp && truthy home).
  - destruct (getitem_str last_wp "command") as [cmd|]; [|discriminate].
    cbn [bind] in Hload.
    destruct (eq_int cmd rtl_command).
    + destruct (getitem_int home 0); [|discriminate]. cbn [bind] in Hload.
      destruct (getitem_int home 1); [|discriminate]. cbn [bind] in Hload.
      destruct (getitem_int home 2); [|discriminate]. cbn [bind] in Hload.
      inversion Hload. repeat split.
    + destruct (getitem_str last_wp "params") as [ps|]; [|discriminate].
      cbn [bind] in Hload.
      destruct (getitem_int ps 4); [|discriminate]. cbn [bind] in Hload.
      destruct (getitem_int ps 5); [|discriminate]. cbn [bind] in Hload.
      destruct (getitem_int ps 6); [|discriminate]. cbn [bind] in Hload.
      destruct (getitem_int home 2); [|discriminate]. cbn [bind] in Hload.
      inversion Hload. repeat split.
  - inversion Hload. repeat split.
Qed.

Lemma loader_keeps_current_position_witness :
  current_lat (set_expected near_end_globals (PNum 10) (PNum 20) (PNum 100) (PNum 0))
  = current_lat near_end_globals.
Proof.
  apply (loader_keeps_current_position (Parsed rtl_plan) near_end_globals).
  reflexivity.
Defined.

End LoaderEdges.

(** ** The home position read by the orchestrator *)

Section HomePosition.

Import Loader.

Lemma getitem_int_truthy (v x : pyval) (i : nat) :
  getitem_int v i = Ok x -> truthy v = true.
Proof.
  destruct v as [| | |s|l|d]; try discriminate.
  - destruct s; [destruct i; discriminate|reflexivity].
  - destruct l; [destruct i; discriminate|reflexivity].
Qed.

Lemma extract_home_position_inv (mission_json lat lon alt : pyval) :
  extract_home_position (Parsed mission_json) = Ok (lat, lon, alt) ->
  exists mission home,
    getitem_str mission_json "mission" = Ok mission /\
    dict_get mission "plannedHomePosition" PNone = Ok home /\
    getitem_int home 0 = Ok lat /\ getitem_int home 1 = Ok lon /\
    getitem_int home 2 = Ok alt.
Proof.
  unfold extract_home_position, read_plan. cbn [bind].
  destruct (getitem_str mission_json "mission") as [m|] eqn:Em; [|discriminate].
  cbn [bind].
  destruct (dict_get m "plannedHomePosition" PNone) as [home|] eqn:Eh;
    [|discriminate].
  cbn [bind]. destruct (is_not_none home); [|discriminate].
  destruct (getitem_int home 0) as [x0|] eqn:E0; [|discriminate]. cbn [bind].
  destruct (getitem_int home 1) as [x1|] eqn:E1; [|discriminate]. cbn [bind].
  destruct (getitem_int home 2) as [x2|] eqn:E2; [|discriminate]. cbn [bind].
  intros H. inversion H; subst. exists m, home. repeat split; assumption.
Qed.

(** X5. When the orchestrator has extracted the home position
    (lat, lon, alt) from a document with items, the loader run on the
    same document derives its values from that same triple: for a plan
    ending in return-to-launch the load succeeds, [last_lat], [last_lon]
    and [last_alt] receive lat, lon and alt and [inic_alt] receives 0;
    for any other plan a successful load puts alt in [inic_alt]. *)
Theorem loader_agrees_with_extracted_home
    (g : globals) (mission_json mission last_wp : pyval)
    (front : list pyval) (command : Z) (lat lon alt : pyval)
    (Hmission : getitem_str mission_json "mission" = Ok mission)
    (Hitems : getitem_str mission "items" = Ok (PList (front ++ [last_wp])))
    (Hcommand : getitem_str last_wp "command" = Ok (PNum (inject_Z command)))
    (Hhome : extract_home_position (Parsed mission_json) = Ok (lat, lon, alt)) :
  (command = 20%Z ->
   exists g',
     load (Parsed mission_json) g = Ok g' /\
     last_lat g' = lat /\ last_lon g' = lon /\ last_alt g' = alt /\
     inic_alt g' = PNum 0) /\
  (forall g', command <> 20%Z ->
     load (Parsed mission_json) g = Ok g' -> inic_alt g' = alt).
Proof.
  destruct (extract_home_position_inv _ _ _ _ Hhome)
    as (m & home & Hm & Hget & H0 & H1 & H2).
  rewrite Hmission in Hm. inversion Hm; subst m.
  assert (E : load (Parsed mission_json) g =
              if (command =? 20)%Z
              then Ok (set_expected g lat lon alt (PNum 0))
              else
                params4 <- getitem_str last_wp "params" ;;
                p4 <- getitem_int params4 4 ;;
                params5 <- getitem_str last_wp "params" ;;
                p5 <- getitem_int params5 5 ;;
                params6 <- getitem_str last_wp "params" ;;
                p6 <- getitem_int params6 6 ;;
                Ok (set_expected g p4 p5 p6 alt)).
  { unfold load, read_plan, expected_end. cbn [bind].
    rewrite Hmission. cbn [bind]. rewrite Hitems. cbn [bind].
    rewrite Hget. cbn [bind].
    assert (Ht : truthy (PList (front ++ [last_wp])) = true)
      by (destruct front; reflexivity).
    rewrite Ht, getitem_last_snoc. cbn [bind].
    rewrite (getitem_str_truthy _ _ _ Hcommand).
    rewrite (getitem_int_truthy _ _ _ H0). cbn [andb].
    rewrite Hcommand. cbn [bind]. rewrite eq_int_inject. unfold rtl_command.
    destruct (command =? 20)%Z.
    - rewrite H0, H1, H2. reflexivity.
    - destruct (getitem_str last_wp "params") as [ps|]; [|reflexivity].
      cbn [bind].
      destruct (getitem_int ps 4); [|reflexivity]. cbn [bind].
      destruct (getitem_int ps 5); [|reflexivity]. cbn [bind].
      destruct (getitem_int ps 6); [|reflexivity]. cbn [bind].
      rewrite H2. reflexivity. }
  split.
  - intros ->. rewrite E. eexists. split; [reflexivity|]. repeat split.
  - intros g' Hne. rewrite E.
    destruct (Z.eqb_spec command 20) as [?|_]; [contradiction|].
    destruct (getitem_str last_wp "params") as [ps|]; [|discriminate].
    cbn [bind].
    destruct (getitem_int ps 4); [|discriminate]. cbn [bind].
    destruct (getitem_int ps 5); [|discriminate]. cbn [bind].
    destruct (getitem_int ps 6); [|discriminate]. cbn [bind].
    intros H. inversion H. reflexivity.
Qed.

Lemma loader_agrees_with_extracted_home_witness :
  exists g',
    load (Parsed rtl_plan) initial_globals = Ok g' /\
    last_lat g' = PNum 10 /\ last_lon g' = PNum 20 /\
    last_alt g' = PNum 100 /\ inic_alt g' = PNum 0.
Proof.
  refine (proj1 (loader_agrees_with_extracted_home initial_globals rtl_plan
                   _ _ [] 20 (PNum 10) (PNum 20) (PNum 100)
                   eq_refl eq_refl eq_refl eq_refl) eq_refl).
Defined.

Lemma extract_home_position_raise_cases (f : plan_file) (e : exn) :
  extract_home_position f = Raise e ->
  (f = Missing /\ e = FileNotFoundError) \/
  (f = Malformed /\ e = JSONDecodeError) \/
  (exists mission_json mission,
     f = Parsed mission_json /\
     getitem_str mission_json "mission" = Ok mission /\
     dict_get mission "plannedHomePosition" PNone = Ok PNone /\
     e = ValueError) \/
  (e = KeyError \/ e = TypeError \/ e = AttributeError \/ e = IndexError).
Proof.
  unfold extract_home_position.
  destruct f as [| |mj]; cbn [read_plan bind].
  - intros H. inversion H. left. split; reflexivity.
  - intros H. inversion H. right. left. split; reflexivity.
  - destruct (getitem_str mj "mission") as [m|e0] eqn:Em.
    + cbn [bind].
      destruct (dict_get m "plannedHomePosition" PNone) as [home|e1] eqn:Eh.
      * cbn [bind]. destruct home as [|b0|q|s|l|d]; cbn [is_not_none getitem_int].
        -- intros H. inversion H. right. right. left.
           exists mj, m. repeat split; assumption.
        -- intros H. inversion H. do 3 right. right. left. reflexivity.
        -- intros H. inversion H. do 3 right. right. left. reflexivity.
        -- destruct (String.get 0 s);
             [|intros H; inversion H; do 3 right; do 3 right; reflexivity].
           cbn [bind].
           destruct (String.get 1 s);
             [|intros H; inversion H; do 3 right; do 3 right; reflexivity].
           cbn [bind].
           destruct (String.get 2 s);
             [discriminate
             |intros H; inversion H; do 3 right; do 3 right; reflexivity].
        -- destruct (nth_error l 0);
             [|intros H; inversion H; do 3 right; do 3 right; reflexivity].
           cbn [bind].
           destruct (nth_error l 1);
             [|intros H; inversion H; do 3 right; do 3 right; reflexivity].
           cbn [bind].
           destruct (nth_error l 2);
             [discriminate
             |intros H; inversion H; do 3 right; do 3 right; reflexivity].
        -- intros H. inversion H. do 3 right. left. reflexivity.
      * cbn [bind]. intros H. inversion H; subst e1.
        destruct m; cbn in Eh; inversion Eh;
          try (do 3 right; right; right; left; reflexivity).
        destruct (lookup "plannedHomePosition" d); discriminate.
    + cbn [bind]. intros H. inversion H; subst e0.
      destruct mj; cbn in Em; inversion Em;
        try (do 3 right; right; left; reflexivity).
      destruct (lookup "mission" d); inversion Em.
      do 3 right. left. reflexivity.
Qed.

(** X6. The [raise ValueError] statement of [extract_home_position] is
    reached exactly when the document has a [mission] object whose home
    position is absent or null: that is the only way the function raises
    an exception of class [ValueError] itself. Counting subclasses as
    [except ValueError] does, an exception it would catch is raised
    exactly in that case or when [json.load] rejects the file, whose
    [JSONDecodeError] is a [ValueError]; a missing file, a missing
    [mission] entry and a home position that is too short or not a list
    raise exceptions that [except ValueError] does not catch. *)
Theorem extract_home_position_value_error (f : plan_file) :
  (extract_home_position f = Raise ValueError <->
   exists mission_json mission,
     f = Parsed mission_json /\
     getitem_str mission_json "mission" = Ok mission /\
     dict_get mission "plannedHomePosition" PNone = Ok PNone) /\
  ((exists e, extract_home_position f = Raise e /\ is_value_error e = true) <->
   f = Malformed \/
   exists mission_json mission,
     f = Parsed mission_json /\
     getitem_str mission_json "mission" = Ok mission /\
     dict_get mission "plannedHomePosition" PNone = Ok PNone).
Proof.
  assert (Hback : forall mj m,
            getitem_str mj "mission" = Ok m ->
            dict_get m "plannedHomePosition" PNone = Ok PNone ->
            extract_home_position (Parsed mj) = Raise ValueError).
  { intros mj m Hm Hh. unfold extract_home_position. cbn [read_plan bind].
    rewrite Hm. cbn [bind]. rewrite Hh. reflexivity. }
  split; split.
  - intros H.
    destruct (extract_home_position_raise_cases f ValueError H)
      as [[_ E]|[[_ E]|[(mj & m & Hf & Hm & Hh & _)|[E|[E|[E|E]]]]]];
      try discriminate.
    exists mj, m. repeat split; assumption.
  - intros (mj & m & -> & Hm & Hh). exact (Hback mj m Hm Hh).
  - intros (e & H & He).
    destruct (extract_home_position_raise_cases f e H)
      as [[_ E]|[[Hf _]|[(mj & m & Hf & Hm & Hh & _)|[E|[E|[E|E]]]]]];
      try (subst e; discriminate).
    + left. exact Hf.
    + right. exists mj, m. repeat split; assumption.
  - intros [->|(mj & m & -> & Hm & Hh)].
    + exists JSONDecodeError. split; reflexivity.
    + exists ValueError. split; [exact (Hback mj m Hm Hh)|reflexivity].
Qed.

Lemma extract_home_position_value_error_witness :
  extract_home_position (Parsed plan_without_home) = Raise ValueError /\
  exists e, extract_home_position Malformed = Raise e /\
            is_value_error e = true.
Proof.
  split.
  - apply (proj2 (proj1 (extract_home_position_value_error
                           (Parsed plan_without_home)))).
    eexists. eexists. split; [reflexivity|]. split; reflexivity.
  - apply (proj2 (proj2 (extract_home_position_value_error Malformed))).
    left. reflexivity.
Defined.

(** X7. On a document whose home position is a list, the orchestrator
    returns its first three entries, ignoring any further ones, and
    raises [IndexError] when there are fewer than three. *)
Theorem extract_home_position_of_list
    (mission_json mission : pyval) (home : list pyval)
    (Hmission : getitem_str mission_json "mission" = Ok mission)
    (Hhome : dict_get mission "plannedHomePosition" PNone = Ok (PList home)) :
  extract_home_position (Parsed mission_json) =
  match home with
  | lat :: lon :: alt :: _ => Ok (lat, lon, alt)
  | _ => Raise IndexError
  end.
Proof.
  unfold extract_home_position. cbn [read_plan bind].
  rewrite Hmission. cbn [bind]. rewrite Hhome. cbn [bind is_not_none].
  destruct home as [|x0 [|x1 [|x2 rest]]]; reflexivity.
Qed.

Lemma extract_home_position_of_list_witness :
  extract_home_position (Parsed rtl_plan) = Ok (PNum 10, PNum 20, PNum 100) /\
  extract_home_position
    (Parsed (plan_doc [] (Some (PList [PNum 10; PNum 20]))))
  = Raise IndexError.
Proof.
  split.
  - eapply (extract_home_position_of_list rtl_plan _
              [PNum 10; PNum 20; PNum 100]); reflexivity.
  - eapply (extract_home_position_of_list _ _ [PNum 10; PNum 20]);
      reflexivity.
Defined.

End HomePosition.

(** ** Further properties of the recorder *)

Section RecorderEdges.

Import Recorder.

Lemma odometry_body_log_step (g : globals) (r : recorder) (o : odometry) :
  exists added,
    log (recorder_of (odometry_body g r o)) = log r ++ added /\
    (List.length added <= 1)%nat.
Proof.
  unfold odometry_body.
  destruct (same_second _ _);
    [exists []; rewrite app_nil_r; split; [reflexivity|cbn; lia]|].
  destruct (compose_row g o _) as [rw|e];
    [|exists []; cbn [recorder_of log]; rewrite app_nil_r;
      split; [reflexivity|cbn; lia]].
  match goal with
  | |- context [check_landing g ?r1] =>
      destruct (check_landing_log g r1) as [-> _]
  end.
  cbn [log]. eexists. split; [reflexivity|cbn; lia].
Qed.

(** X8. The rows already written are never changed or removed: after
    any messages the log is the old log followed by at most one new row
    per odometry message; position messages add none. *)
Theorem log_only_grows (msgs : list message) (g : globals) (r : recorder) :
  exists added,
    log (recorder_of (snd (run_telemetry g r msgs))) = log r ++ added /\
    (List.length added <= List.length (odometry_times msgs))%nat.
Proof.
  revert g r. induction msgs as [|[p|o] msgs IH]; intros g r; cbn.
  - exists []. rewrite app_nil_r. split; [reflexivity|cbn; lia].
  - apply IH.
  - destruct (odometry_body_log_step g r o) as (added & Hlog & Hlen).
    destruct (odometry_body g r o) as [r1|r1|e r1]; cbn [recorder_of] in Hlog.
    + destruct (IH g r1) as (added' & Hlog' & Hlen').
      exists (added ++ added'). rewrite Hlog', Hlog, app_assoc.
      split; [reflexivity|]. rewrite length_app. lia.
    + exists added. cbn. split; [exact Hlog|lia].
    + exists added. cbn. split; [exact Hlog|lia].
Qed.

Lemma fold_log_gps_expected (ps : list position) (g : globals) :
  last_lat (fold_left log_gps ps g) = last_lat g /\
  last_lon (fold_left log_gps ps g) = last_lon g /\
  last_alt (fold_left log_gps ps g) = last_alt g /\
  inic_alt (fold_left log_gps ps g) = inic_alt g.
Proof.
  revert g. induction ps as [|p ps IH]; intros g; cbn; [repeat split|].
  destruct (IH (log_gps g p)) as (-> & -> & -> & ->). repeat split.
Qed.

(** X9. A stream of position messages alone writes no row, changes no
    counter and never ends the race. Afterwards [current_lat],
    [current_lon] and [current_alt] hold the latitude, longitude and
    absolute altitude of the last message received, and the expected end
    position and the base altitude are as before. *)
Theorem position_stream_never_ends
    (ps : list position) (g : globals) (r : recorder) :
  snd (run_telemetry g r (map Position ps)) = Continue r /\
  Controller.race g (map Position ps) = None /\
  (forall ps' p, ps = ps' ++ [p] ->
     let g' := fst (run_telemetry g r (map Position ps)) in
     current_lat g' = PNum (latitude_deg p) /\
     current_lon g' = PNum (longitude_deg p) /\
     current_alt g' = PNum (absolute_altitude_m p) /\
     last_lat g' = last_lat g /\ last_lon g' = last_lon g /\
     last_alt g' = last_alt g /\ inic_alt g' = inic_alt g).
Proof.
  assert (H : forall ps g r,
            run_telemetry g r (map Position ps)
            = (fold_left log_gps ps g, Continue r)).
  { clear. induction ps as [|p ps IH]; intros g r; cbn; [reflexivity|apply IH]. }
  split; [rewrite H; reflexivity|]. split.
  - unfold Controller.race, Controller.wait_first_completed. rewrite H.
    reflexivity.
  - intros ps' p ->. cbv zeta. rewrite H. cbn [fst]. rewrite fold_left_app.
    cbn [fold_left].
    destruct (fold_log_gps_expected ps' g) as (E1 & E2 & E3 & E4).
    generalize dependent (fold_left log_gps ps' g). intros g1 E1 E2 E3 E4.
    unfold log_gps.
    cbn [current_lat current_lon current_alt last_lat last_lon last_alt
         inic_alt].
    repeat split; assumption.
Qed.

Lemma position_stream_never_ends_witness :
  current_lat (fst (run_telemetry loaded_globals initial_recorder
                      [Position first_fix]))
  = PNum 11.
Proof.
  exact (proj1 (proj2 (proj2 (position_stream_never_ends [first_fix]
                                loaded_globals initial_recorder))
                      [] first_fix eq_refl)).
Defined.

Lemma check_landing_unknown (g : globals) (r : recorder) :
  position_known g = false -> check_landing g r = Continue r.
Proof. intros H. unfold check_landing. rewrite H. reflexivity. Qed.

Lemma odometry_body_without_base (g : globals) (r : recorder) (o : odometry) :
  inic_alt g = PNone ->
  (forall r', odometry_body g r o <> Return r') /\
  a (recorder_of (odometry_body g r o)) = a r /\
  b (recorder_of (odometry_body g r o)) = b r /\
  c (recorder_of (odometry_body g r o)) = c r.
Proof.
  intros Hbase.
  assert (Hk : position_known g = false).
  { unfold position_known. rewrite Hbase. cbn. apply andb_false_r. }
  unfold odometry_body.
  destruct (same_second _ _); [repeat split; discriminate|].
  destruct (compose_row g o _); [|repeat split; discriminate].
  rewrite check_landing_unknown by exact Hk. repeat split. discriminate.
Qed.

(** X10. When the base altitude is unset (the loader found no items or
    no home position), landing is never evaluated: whatever arrives, the
    recorder never returns and its counters never move. *)
Theorem no_base_altitude_never_lands
    (msgs : list message) (g : globals) (r : recorder)
    (Hbase : inic_alt g = PNone) :
  (forall r', snd (run_telemetry g r msgs) <> Return r') /\
  a (recorder_of (snd (run_telemetry g r msgs))) = a r /\
  b (recorder_of (snd (run_telemetry g r msgs))) = b r /\
  c (recorder_of (snd (run_telemetry g r msgs))) = c r.
Proof.
  revert g r Hbase. induction msgs as [|[p|o] msgs IH]; intros g r Hbase; cbn.
  - repeat split. discriminate.
  - apply IH. exact Hbase.
  - destruct (odometry_body_without_base g r o Hbase) as (Hnr & Ha & Hb & Hc).
    destruct (odometry_body g r o) as [r1|r1|e r1]; cbn [recorder_of] in *.
    + destruct (IH g r1 Hbase) as (Hnr' & Ha' & Hb' & Hc').
      rewrite Ha', Hb', Hc', Ha, Hb, Hc. split; [exact Hnr'|repeat split].
    + exfalso. exact (Hnr r1 eq_refl).
    + cbn [snd recorder_of]. split; [discriminate|repeat split; assumption].
Qed.

Lemma no_base_altitude_never_lands_witness :
  a (recorder_of (snd (run_telemetry unloaded_globals initial_recorder
                         (tl landing_messages)))) = 1%Z.
Proof.
  apply (proj1 (proj2 (no_base_altitude_never_lands (tl landing_messages)
                         unloaded_globals initial_recorder eq_refl))).
Defined.

(** X11. When the expected latitude is null while the base altitude and
    the current position are known, the first sample that is kept before
    settling raises [TypeError] in the landing test, after its row was
    written. *)
Theorem null_expected_latitude_raises
    (g : globals) (r : recorder) (o : odometry) (lat lon alt : Q)
    (Hlat : current_lat g = PNum lat) (Hlon : current_lon g = PNum lon)
    (Halt : current_alt g = PNum alt)
    (Hbase : inic_alt g <> PNone)
    (Hnull : last_lat g = PNone)
    (Hnew : same_second (seconds (time_usec o)) (last_sim_time r) = false)
    (Hb : b r = 0%Z) :
  exists rw,
    odometry_body g r o
    = Raised TypeError
        (mkRecorder (a r + 1) (b r) (c r) (Some (seconds (time_usec o)))
                    (log r ++ [mkEntry (seconds (time_usec o)) rw])).
Proof.
  unfold odometry_body. rewrite Hnew.
  destruct (compose_row_numeric g o (seconds (time_usec o)) lat lon
              Hlat Hlon (or_intror (ex_intro _ alt Halt))) as [rw ->].
  exists rw. unfold check_landing, position_known. cbn [a b c last_sim_time log].
  rewrite Hlat, Hlon, Halt. cbn [is_not_none andb].
  destruct (inic_alt g) eqn:Eb; try contradiction; cbn [is_not_none];
    unfold settle_condition, and_then, near, sub;
    rewrite Hb, Hlat, Hnull; reflexivity.
Qed.

Lemma null_expected_latitude_raises_witness :
  exists rw,
    odometry_body null_latitude_globals initial_recorder (sample_at 1)
    = Raised TypeError
        (mkRecorder 2 0 1 (Some (seconds 1000000))
                    [mkEntry (seconds 1000000) rw]).
Proof.
  destruct (null_expected_latitude_raises null_latitude_globals
              initial_recorder (sample_at 1) 11 21 150.2)
    as [rw H]; try reflexivity.
  - discriminate.
  - exists rw. exact H.
Defined.

Lemma odometry_body_return_facts (g : globals) (r r' : recorder) (o : odometry) :
  odometry_body g r o = Return r' ->
  b r = 1%Z /\ a r' = (a r + 1)%Z /\ c r' = c r /\
  (umbral_espera < a r' - c r')%Z /\
  List.length (log r') = S (List.length (log r)).
Proof.
  unfold odometry_body.
  destruct (same_second _ _); [discriminate|].
  destruct (compose_row g o _) as [rw|e]; [|discriminate].
  unfold check_landing. cbn [a b c last_sim_time log].
  destruct (position_known g); [|discriminate].
  destruct (settle_condition g (a r + 1) (b r)) as [settle|e]; [|discriminate].
  destruct settle.
  - rewrite Z.sub_diag. cbn. discriminate.
  - destruct (Z.eqb_spec (b r) 1) as [Hb|Hb]; [|discriminate].
    destruct (Z.ltb_spec umbral_espera (a r + 1 - c r)) as [Hlt|Hge];
      [|discriminate].
    cbn [andb]. intros H. inversion H; subst. cbn [a b c log].
    rewrite length_app. cbn. repeat split; try assumption. lia.
Qed.

Lemma odometry_body_cover (g : globals) (r r' : recorder) (o : odometry) :
  rows_cover_count r -> odometry_body g r o = Continue r' ->
  rows_cover_count r'.
Proof.
  intros (Hc & Hrows & Hwait) Hstep.
  pose proof (odometry_body_counters g r o Hc) as Hc'.
  rewrite Hstep in Hc'. cbn [recorder_of] in Hc'.
  split; [exact Hc'|]. clear Hc'.
  unfold odometry_body in Hstep.
  destruct (same_second _ _);
    [inversion Hstep; subst; split; assumption|].
  destruct (compose_row g o _) as [rw|e]; [|discriminate].
  unfold check_landing in Hstep. cbn [a b c last_sim_time log] in Hstep.
  destruct (position_known g).
  - destruct (settle_condition g (a r + 1) (b r)) as [settle|e] eqn:E;
      [|discriminate].
    destruct settle.
    + rewrite Z.sub_diag in Hstep. cbn in Hstep. inversion Hstep; subst.
      cbn [a b c log]. rewrite length_app. cbn.
      unfold umbral_espera, datos_por_segundo. split; lia.
    + destruct (Z.eqb_spec (b r) 1) as [Hb|Hb].
      * destruct (Z.ltb_spec umbral_espera (a r + 1 - c r)) as [Hlt|Hge];
          [discriminate|].
        cbn [andb] in Hstep. inversion Hstep; subst.
        cbn [a b c log]. rewrite length_app. cbn. split; [lia|].
        intros _. exact Hge.
      * cbn [andb] in Hstep. inversion Hstep; subst.
        cbn [a b c log]. rewrite length_app. cbn. split; [lia|].
        intros Hb'. contradiction.
  - inversion Hstep; subst. cbn [a b c log]. rewrite length_app. cbn.
    split; [lia|exact Hwait].
Qed.

Lemma run_telemetry_cover (msgs : list message) (g g' : globals)
    (r r' : recorder) :
  rows_cover_count r -> run_telemetry g r msgs = (g', Continue r') ->
  rows_cover_count r'.
Proof.
  revert g r. induction msgs as [|[p|o] msgs IH]; intros g r Hinv; cbn.
  - intros H. inversion H; subst. exact Hinv.
  - apply IH. exact Hinv.
  - destruct (odometry_body g r o) as [r1|r1|e r1] eqn:E; try discriminate.
    apply IH. exact (odometry_body_cover g r r1 o Hinv E).
Qed.

(** X12. A recorder that completes has written at least 41 rows, has
    settled at a count of at least 21 and returns exactly 21 evaluated
    samples after it settled. *)
Theorem recorder_completes_after_41_rows
    (msgs : list message) (g g' : globals) (r' : recorder)
    (Hrun : run_telemetry g initial_recorder msgs = (g', Return r')) :
  (41 <= List.length (log r'))%nat /\
  (21 <= c r')%Z /\ a r' = (c r' + 21)%Z.
Proof.
  destruct (run_telemetry_return_inv msgs g g' initial_recorder r' Hrun)
    as (pre & o & rest & r1 & _ & Hpre & Hret).
  assert (Hinit : rows_cover_count initial_recorder).
  { split; [left; reflexivity|]. split; [cbn; lia|]. cbn. discriminate. }
  destruct (run_telemetry_cover pre g g' initial_recorder r1 Hinit Hpre)
    as (Hc & Hrows & Hwait).
  destruct (odometry_body_return_facts g' r1 r' o Hret)
    as (Hb & Ha & Hcc & Hlt & Hlen).
  destruct Hc as [H0|[_ Hthr]]; [congruence|].
  specialize (Hwait Hb).
  unfold umbral_espera, datos_por_segundo in *. lia.
Qed.

Lemma recorder_completes_after_41_rows_witness :
  (41 <= List.length
           (log (recorder_of
                   (snd (run_telemetry loaded_globals initial_recorder
                                       landing_messages)))))%nat.
Proof.
  assert (E : run_telemetry loaded_globals initial_recorder landing_messages
              = (fst (run_telemetry loaded_globals initial_recorder
                                    landing_messages),
                 Return (recorder_of
                           (snd (run_telemetry loaded_globals initial_recorder
                                               landing_messages)))))
    by (vm_compute; reflexivity).
  exact (proj1 (recorder_completes_after_41_rows _ _ _ _ E)).
Defined.

Lemma odometry_body_no_raise (g : globals) (r : recorder) (o : odometry) :
  position_numeric g ->
  expected_end_numeric g \/ inic_alt g = PNone ->
  forall e r', odometry_body g r o <> Raised e r'.
Proof.
  intros (lat & lon & alt & Hlat & Hlon & Halt) Hend e r'.
  unfold odometry_body.
  destruct (same_second _ _); [discriminate|].
  destruct (compose_row_numeric g o (seconds (time_usec o)) lat lon
              Hlat Hlon (or_intror (ex_intro _ alt Halt))) as [rw ->].
  destruct Hend as [(elat & elon & ealt & base & H1 & H2 & H3 & H4)|Hnone].
  - unfold check_landing, position_known. cbn [a b c last_sim_time log].
    rewrite Hlat, Hlon, Halt, H4. cbn [is_not_none andb].
    rewrite (settle_condition_numeric g (a r + 1) (b r)
               lat lon alt elat elon ealt base) by assumption.
    cbv zeta.
    match goal with
    | |- (if ?t then _ else _) <> _ => destruct t; discriminate
    end.
  - rewrite check_landing_unknown; [discriminate|].
    unfold position_known. rewrite Hnone. cbn. apply andb_false_r.
Qed.

(** X13. Once a position has been received, and with the expected end
    position and base altitude either all numbers or the base altitude
    unset, no message makes the recorder raise. *)
Theorem recorder_never_raises_once_positioned
    (msgs : list message) (g : globals) (r : recorder)
    (Hpos : position_numeric g)
    (Hend : expected_end_numeric g \/ inic_alt g = PNone) :
  forall e r', snd (run_telemetry g r msgs) <> Raised e r'.
Proof.
  revert g r Hpos Hend.
  induction msgs as [|[p|o] msgs IH]; intros g r Hpos Hend e r'; cbn.
  - discriminate.
  - apply IH.
    + exists (latitude_deg p), (longitude_deg p), (absolute_altitude_m p).
      repeat split.
    + exact Hend.
  - pose proof (odometry_body_no_raise g r o Hpos Hend) as Hno.
    destruct (odometry_body g r o) as [r1|r1|x r1]; cbn [snd].
    + apply IH; assumption.
    + discriminate.
    + exfalso. exact (Hno x r1 eq_refl).
Qed.

Lemma recorder_never_raises_once_positioned_witness :
  match snd (run_telemetry near_end_globals initial_recorder
               (tl landing_messages)) with
  | Raised _ _ => False
  | _ => True
  end.
Proof.
  assert (Hpos : position_numeric near_end_globals)
    by (exists 11, 21, 150.2; repeat split).
  assert (Hend : expected_end_numeric near_end_globals \/
                 inic_alt near_end_globals = PNone)
    by (left; exists 11, 21, 50, 100; repeat split).
  pose proof (recorder_never_raises_once_positioned (tl landing_messages)
                near_end_globals initial_recorder Hpos Hend) as H.
  destruct (snd (run_telemetry near_end_globals initial_recorder
                   (tl landing_messages))) as [r|r|e r];
    [exact I|exact I|exact (H e r eq_refl)].
Defined.

End RecorderEdges.

(** ** The de-duplication window *)

Section Window.

Import Recorder.

Lemma round_half_even_within_half (x : Q) (k : Z) :
  inject_Z k - (1 # 2) < x -> x < inject_Z k + (1 # 2) ->
  round_half_even x = k.
Proof.
  intros Hlo Hhi. unfold round_half_even.
  pose proof (Qfloor_le x) as Hf0. pose proof (Qlt_floor x) as Hf1.
  rewrite inject_Z_plus in Hf1. change (inject_Z 1) with 1 in Hf1.
  assert (Hle : (Qfloor x <= k)%Z).
  { apply Z.lt_succ_r. rewrite Zlt_Qlt. unfold Z.succ.
    rewrite inject_Z_plus. change (inject_Z 1) with 1. lra. }
  assert (Hge : (k <= Qfloor x + 1)%Z).
  { apply Z.lt_succ_r. rewrite Zlt_Qlt. unfold Z.succ.
    rewrite !inject_Z_plus. change (inject_Z 1) with 1. lra. }
  destruct (Z.eq_dec (Qfloor x) k) as [E|E].
  - rewrite E in *.
    destruct (Qcompare_spec (x - inject_Z k) (1 # 2)); [lra|reflexivity|lra].
  - assert (E' : k = (Qfloor x + 1)%Z) by lia.
    subst k. rewrite inject_Z_plus in Hlo, Hhi.
    change (inject_Z 1) with 1 in Hlo, Hhi.
    destruct (Qcompare_spec (x - inject_Z (Qfloor x)) (1 # 2));
      [lra|lra|reflexivity].
Qed.

Lemma seconds_within_half (k u : Z) :
  (k * 1000000 - 500000 < u < k * 1000000 + 500000)%Z ->
  inject_Z k - (1 # 2) < seconds u /\ seconds u < inject_Z k + (1 # 2).
Proof.
  intros [Hlo Hhi]. unfold seconds, Qlt. cbn. split; lia.
Qed.

(** X14. The whole second of a timestamp strictly less than half a
    second away from [k] seconds is [k]; of two such samples, the
    second is dropped as a duplicate of the first. *)
Theorem same_window_is_duplicate (k u v : Z)
    (Hu : (k * 1000000 - 500000 < u < k * 1000000 + 500000)%Z)
    (Hv : (k * 1000000 - 500000 < v < k * 1000000 + 500000)%Z) :
  round (seconds u) 0 == inject_Z k /\
  same_second (seconds v) (Some (seconds u)) = true.
Proof.
  destruct (seconds_within_half k u Hu) as [Hu0 Hu1].
  destruct (seconds_within_half k v Hv) as [Hv0 Hv1].
  assert (Eu : round (seconds u) 0 == inject_Z k).
  { rewrite round_0, (round_half_even_within_half _ k Hu0 Hu1). reflexivity. }
  assert (Ev : round (seconds v) 0 == inject_Z k).
  { rewrite round_0, (round_half_even_within_half _ k Hv0 Hv1). reflexivity. }
  split; [exact Eu|].
  unfold same_second. apply Qeq_bool_iff. rewrite Eu, Ev. reflexivity.
Qed.

Lemma same_window_is_duplicate_witness :
  same_second (seconds 7499999) (Some (seconds 6500001)) = true.
Proof.
  apply (same_window_is_duplicate 7 6500001 7499999); lia.
Defined.

End Window.

(** ** Further properties of the takeoff sequencer and of [run] *)

Section ControllerEdges.

Import Takeoff Controller.

Lemma first_airborne (env : nat -> attempt_env) (n : nat) :
  (forall j, (j < n)%nat -> airborne (env j) = false) \/
  exists k, (k < n)%nat /\ airborne (env k) = true /\
            forall j, (j < k)%nat -> airborne (env j) = false.
Proof.
  induction n as [|n [Hnone|(k & Hk & Hair & Hbefore)]].
  - left. intros j Hj. lia.
  - destruct (airborne (env n)) eqn:E.
    + right. exists n. repeat split; [lia|exact E|exact Hnone].
    + left. intros j Hj. destruct (Nat.eq_dec j n) as [->|Hne];
        [exact E|apply Hnone; lia].
  - right. exists k. repeat split; [lia|exact Hair|exact Hbefore].
Qed.

(** X15. [attempt_takeoff] returns normally exactly when one of the
    first five attempts ends airborne; otherwise it raises
    [RuntimeError], and nothing else. *)
Theorem takeoff_succeeds_iff (env : nat -> attempt_env) :
  (fst (attempt_takeoff env) = Ok tt <->
   exists k, (k < 5)%nat /\ airborne (env k) = true) /\
  (fst (attempt_takeoff env) = Ok tt \/
   fst (attempt_takeoff env) = Raise RuntimeError).
Proof.
  unfold attempt_takeoff.
  destruct (first_airborne env 5) as [Hnone|(k & Hk & Hair & Hbefore)].
  - rewrite (takeoff_loop_exhausted env (max_attempts - 0) 0 Hnone).
    cbn [fst]. split; [|right; reflexivity]. split; [discriminate|].
    intros (k & Hk & Hair). rewrite (Hnone k Hk) in Hair. discriminate.
  - rewrite (takeoff_loop_airborne env (max_attempts - 0) 0 k Hk Hair Hbefore).
    cbn [fst]. split; [|left; reflexivity]. split; [|reflexivity].
    intros _. exists k. split; assumption.
Qed.

Lemma takeoff_succeeds_iff_witness :
  fst (attempt_takeoff airborne_at_third) = Ok tt.
Proof.
  apply (proj2 (proj1 (takeoff_succeeds_iff airborne_at_third))).
  exists 2%nat. split; [lia|reflexivity].
Defined.

Lemma open_log_not_takeoff (t : list Takeoff.event) :
  ~ In ActOpenLog (map ActTakeoff t).
Proof.
  intros H. apply in_map_iff in H. destruct H as (x & Hx & _). discriminate.
Qed.

(** X16. [run] opens the trajectory log only after the plan was loaded,
    the mission uploaded and the takeoff confirmed; it commands a
    takeoff only after a successful load and upload. *)
Theorem log_opened_only_after_takeoff (w : world) :
  (In ActOpenLog (snd (run w)) ->
   (exists g, Loader.load (plan w) initial_globals = Ok g) /\
   upload w = None /\ fst (attempt_takeoff (link w)) = Ok tt) /\
  (forall ev, In (ActTakeoff ev) (snd (run w)) ->
   (exists g, Loader.load (plan w) initial_globals = Ok g) /\
   upload w = None).
Proof.
  unfold run.
  destruct (Loader.load (plan w) initial_globals) as [g|e];
    [|split; [intros []|intros ev []]].
  destruct (upload w) as [e|].
  { split; [intros [H|[]]; discriminate|intros ev [H|[]]; discriminate]. }
  destruct (attempt_takeoff (link w)) as [r t].
  split.
  - intros H. split; [exists g; reflexivity|]. split; [reflexivity|].
    destruct r as [[]|e]; [reflexivity|]. exfalso. cbn [snd] in H.
    destruct H as [H|H]; [discriminate|]. exact (open_log_not_takeoff t H).
  - intros ev _. split; [exists g; reflexivity|reflexivity].
Qed.

Lemma log_opened_only_after_takeoff_witness :
  fst (attempt_takeoff (link early_sample_world)) = Ok tt.
Proof.
  apply (proj1 (log_opened_only_after_takeoff early_sample_world)).
  vm_compute. right. right. right. right. left. reflexivity.
Defined.

(** X17. An exception raised inside the recorder is not propagated by
    [run]: when the plan was loaded, the mission uploaded and the takeoff
    confirmed, and [log_odometry] raises on the telemetry received, [run]
    returns normally, as after a completed recording: the position task
    is cancel-requested, the recorder task has failed with that
    exception, and the log is closed with the rows written before it. *)
Theorem recorder_failure_not_propagated
    (w : world) (g g' : globals) (x : exn) (r : Recorder.recorder)
    (Hload : Loader.load (plan w) initial_globals = Ok g)
    (Hupload : upload w = None)
    (Htakeoff : fst (attempt_takeoff (link w)) = Ok tt)
    (Hraise : Recorder.run_telemetry g Recorder.initial_recorder (telemetry w)
              = (g', Recorder.Raised x r)) :
  exists e,
    fst (run w) = Returned e /\
    gps_task e = CancelRequested /\
    odometry_task e = Failed x /\
    csv_rows e = Recorder.log r /\
    csv_closed e = true.
Proof.
  unfold run. rewrite Hload, Hupload.
  destruct (attempt_takeoff (link w)) as [res t]. cbn [fst] in Htakeoff.
  subst res. unfold race, wait_first_completed. rewrite Hraise.
  eexists. split; [reflexivity|]. repeat split.
Qed.

Lemma recorder_failure_not_propagated_witness :
  exists e,
    fst (run early_sample_world) = Returned e /\
    gps_task e = CancelRequested /\
    odometry_task e = Failed TypeError /\
    csv_rows e = [] /\
    csv_closed e = true.
Proof.
  exact (recorder_failure_not_propagated early_sample_world
           loaded_globals loaded_globals TypeError
           (Recorder.mkRecorder 1 0 1 (Some (Recorder.seconds 1000000)) [])
           eq_refl eq_refl eq_refl eq_refl).
Defined.

End ControllerEdges.

(** ** The orchestrator *)

Section OrchestratorProperties.

Import Orchestrator.

Lemma monitor_skips (env : plan_env) (pre rest : list string) (csv : csv_file) :
  Forall not_ready pre ->
  monitor_px4_output env (pre ++ rest) csv = monitor_px4_output env rest csv.
Proof.
  induction 1 as [|line pre Hline _ IH]; [reflexivity|].
  cbn [app monitor_px4_output]. rewrite Hline. exact IH.
Qed.

Lemma monitor_cases (env : plan_env) (lines : list string) (csv : csv_file) :
  (monitor_px4_output env lines csv = (Done csv, []) /\ Forall not_ready lines) \/
  (exists line, In line lines /\ ready line = true) /\
  ((exists e, monitor_px4_output env lines csv = (Throws e, [ActLaunchScript])) \/
   monitor_px4_output env lines csv = (Hangs, [ActLaunchScript]) \/
   (exists e, monitor_px4_output env lines csv
              = (Throws e, [ActLaunchScript; ActShutdown])) \/
   (exists csv', monitor_px4_output env lines csv
                 = (Done csv', [ActLaunchScript; ActShutdown]))).
Proof.
  induction lines as [|line lines IH].
  - left. split; [reflexivity|constructor].
  - cbn [monitor_px4_output]. destruct (ready line) eqn:Er.
    + right. split; [exists line; split; [left; reflexivity|exact Er]|].
      unfold run_mavsdk_mission.
      destruct (launch_script env) as [e|]; [left; eexists; reflexivity|].
      destruct (fst (Controller.run (script_world env)));
        [|right; left; reflexivity|];
        (destruct (shutdown env) as [e'|];
         [right; right; left; eexists; reflexivity
         |right; right; right; eexists; reflexivity]).
    + destruct IH as [[E Hall]|[(l & Hin & Hl) IH]].
      * left. split; [exact E|constructor; assumption].
      * right. split; [exists l; split; [right; exact Hin|exact Hl]|exact IH].
Qed.

(** X18. [monitor_px4_output] launches the mission script at the first
    line containing the ready message and reads no line after it; lines
    before it are skipped. When the output ends without such a line
    the script is never launched and the monitor returns normally. In
    all cases the script is launched at most once. *)
Theorem script_launched_at_first_ready_line
    (env : plan_env) (csv : csv_file) :
  (forall pre line rest,
     Forall not_ready pre -> ready line = true ->
     monitor_px4_output env (pre ++ line :: rest) csv
     = monitor_px4_output env [line] csv /\
     launches (snd (monitor_px4_output env (pre ++ line :: rest) csv)) = 1%nat) /\
  (forall lines,
     Forall not_ready lines ->
     monitor_px4_output env lines csv = (Done csv, [])) /\
  (forall lines,
     (launches (snd (monitor_px4_output env lines csv)) <= 1)%nat).
Proof.
  split; [|split].
  - intros pre line rest Hpre Hline.
    rewrite (monitor_skips env pre (line :: rest) csv Hpre).
    cbn [monitor_px4_output]. rewrite Hline. split; [reflexivity|].
    unfold run_mavsdk_mission.
    destruct (launch_script env); [reflexivity|].
    destruct (fst (Controller.run (script_world env)));
      try reflexivity; destruct (shutdown env); reflexivity.
  - intros lines Hall.
    rewrite <- (app_nil_r lines), (monitor_skips env lines [] csv Hall).
    reflexivity.
  - intros lines.
    destruct (monitor_cases env lines csv)
      as [[-> _]|[_ [[e ->]|[->|[[e ->]|[csv' ->]]]]]]; cbn; lia.
Qed.

Lemma script_launched_at_first_ready_line_witness :
  monitor_px4_output smooth_env (stdout smooth_env) Blank
  = monitor_px4_output smooth_env ["INFO  [commander] Ready for takeoff!"] Blank.
Proof.
  apply (proj1 (script_launched_at_first_ready_line smooth_env Blank)
           ["INFO  [init] found model autostart file"]
           "INFO  [commander] Ready for takeoff!"
           ["INFO  [logger] Opened full log file"]).
  - constructor; [reflexivity|constructor].
  - reflexivity.
Defined.

Ltac in_cases :=
  repeat match goal with
         | H : In _ (_ :: _) |- _ => destruct H as [H|H]
         | H : In _ [] |- _ => destruct H
         | H : _ \/ _ |- _ => destruct H as [H|H]
         | H : False |- _ => destruct H
         end.

Ltac trace_cases H m :=
  unfold update_machine_status in H; destruct (truthy m) eqn:?;
  cbn in H; in_cases; try discriminate.

(** X19. A plan is marked [procesado] only when every step before it
    succeeded: the files were prepared and the plan written, a home
    position was extracted, the simulator started, the monitor returned
    normally and the trajectory file was read back; the stored result is
    the trajectory file as the monitor left it. No other plan status is
    ever written. *)
Theorem plan_marked_only_on_success
    (machine_id : pyval) (env : plan_env) (status : string) (csv : csv_file)
    (Hmark : In (ActPlanStatus status csv)
                (snd (process_flight_plan machine_id env))) :
  status = "procesado" /\
  prepare env = None /\ write_plan env = None /\
  (exists home, Loader.extract_home_position (written_file env) = Ok home) /\
  start_simulator env = None /\
  (exists t, monitor_px4_output env (stdout env) Blank = (Done csv, t)) /\
  read_csv env = None.
Proof.
  unfold process_flight_plan in Hmark.
  destruct (prepare env); [trace_cases Hmark machine_id|].
  destruct (write_plan env); [trace_cases Hmark machine_id|].
  destruct (Loader.extract_home_position (written_file env))
    as [[[la lo] al]|e] eqn:Eh; [|trace_cases Hmark machine_id].
  destruct (start_simulator env); [trace_cases Hmark machine_id|].
  destruct (monitor_cases env (stdout env) Blank)
    as [[E _]|[_ [[e E]|[E|[[e E]|[csv' E]]]]]]; rewrite E in Hmark |- *;
    try (trace_cases Hmark machine_id; fail);
    (destruct (read_csv env); [trace_cases Hmark machine_id|]);
    (destruct (remove_files env); trace_cases Hmark machine_id);
    inversion Hmark; subst;
    (repeat split; try reflexivity; eexists; reflexivity).
Qed.

Lemma plan_marked_only_on_success_witness :
  exists t,
    monitor_px4_output silent_env (stdout silent_env) Blank = (Done Blank, t).
Proof.
  apply (plan_marked_only_on_success (PNum 1) silent_env "procesado" Blank).
  vm_compute. do 4 right. left. reflexivity.
Defined.

(** X20. A plan file without a home position makes
    [process_flight_plan] raise [ValueError] right after the plan was
    written: the simulator is not started, no machine or plan status is
    written and no file is removed. In [monitor_flight_plan] the
    exception ends the turn: the plans after it are not processed, and
    the loop sleeps 5 seconds. *)
Theorem homeless_plan_is_not_processed
    (machine_id : pyval) (env : plan_env) (mission_json mission : pyval)
    (Hprepare : prepare env = None)
    (Hwrite : write_plan env = None)
    (Hfile : written_file env = Loader.Parsed mission_json)
    (Hmission : getitem_str mission_json "mission" = Ok mission)
    (Hhome : dict_get mission "plannedHomePosition" PNone = Ok PNone) :
  process_flight_plan machine_id env
  = (Throws ValueError, [ActPrepare; ActWritePlan]) /\
  (forall rest,
     poll_once machine_id (Ok (env :: rest))
     = (Done tt, [ActPrepare; ActWritePlan; ActSleep 5])).
Proof.
  assert (E : process_flight_plan machine_id env
              = (Throws ValueError, [ActPrepare; ActWritePlan])).
  { unfold process_flight_plan. rewrite Hprepare, Hwrite, Hfile.
    unfold Loader.extract_home_position. cbn [Loader.read_plan bind].
    rewrite Hmission. cbn [bind]. rewrite Hhome. reflexivity. }
  split; [exact E|].
  intros rest. unfold poll_once. cbn [process_plans]. rewrite E. reflexivity.
Qed.

Lemma homeless_plan_is_not_processed_witness :
  poll_once (PNum 1) (Ok [homeless_env; smooth_env])
  = (Done tt, [ActPrepare; ActWritePlan; ActSleep 5]).
Proof.
  eapply (proj2 (homeless_plan_is_not_processed (PNum 1) homeless_env
                   plan_without_home _ eq_refl eq_refl eq_refl eq_refl eq_refl)).
Defined.

Lemma monitor_without_log (env : plan_env) (lines : list string)
    (csv : csv_file) :
  launch_script env = None -> shutdown env = None ->
  Forall not_ready lines \/
  (exists e, fst (Controller.run (script_world env)) = Controller.Propagated e) ->
  exists t, monitor_px4_output env lines csv = (Done csv, t).
Proof.
  intros Hl Hs Hcase. induction lines as [|line lines IH].
  - exists []. reflexivity.
  - cbn [monitor_px4_output]. destruct (ready line) eqn:Er.
    + destruct Hcase as [Hall|[e He]].
      * inversion Hall as [|? ? Hline _]; subst. unfold not_ready in Hline.
        congruence.
      * unfold run_mavsdk_mission. rewrite Hl, He, Hs. eexists. reflexivity.
    + apply IH. destruct Hcase as [Hall|He]; [|right; exact He].
      left. inversion Hall; assumption.
Qed.

(** X21. The orchestrator does not look at how the mission went: when
    the simulator's output ends without the ready message, or when the
    mission script ends with an exception (a failed load, upload or
    takeoff), the plan is still marked [procesado], with the blank
    trajectory file as its result. *)
Theorem plan_processed_with_blank_result
    (machine_id : pyval) (env : plan_env) (home : pyval * pyval * pyval)
    (Hprepare : prepare env = None)
    (Hwrite : write_plan env = None)
    (Hhome : Loader.extract_home_position (written_file env) = Ok home)
    (Hstart : start_simulator env = None)
    (Hlaunch : launch_script env = None)
    (Hshutdown : shutdown env = None)
    (Hread : read_csv env = None)
    (Hremove : remove_files env = None)
    (Hmission : Forall not_ready (stdout env) \/
                exists e, fst (Controller.run (script_world env))
                          = Controller.Propagated e) :
  fst (process_flight_plan machine_id env) = Done tt /\
  In (ActPlanStatus "procesado" Blank)
     (snd (process_flight_plan machine_id env)).
Proof.
  destruct (monitor_without_log env (stdout env) Blank Hlaunch Hshutdown Hmission)
    as [t Hmon].
  unfold process_flight_plan.
  rewrite Hprepare, Hwrite, Hhome. destruct home as [[la lo] al].
  rewrite Hstart, Hmon, Hread, Hremove. cbn [fst snd].
  split; [reflexivity|].
  rewrite !in_app_iff. cbn [In]. left. right. right. right. left. reflexivity.
Qed.

Lemma plan_processed_with_blank_result_witness :
  In (ActPlanStatus "procesado" Blank)
     (snd (process_flight_plan (PNum 1) grounded_env)) /\
  In (ActPlanStatus "procesado" Blank)
     (snd (process_flight_plan (PNum 1) silent_env)).
Proof.
  split.
  - apply (plan_processed_with_blank_result (PNum 1) grounded_env
             (PNum 10, PNum 20, PNum 100)); try reflexivity.
    right. exists RuntimeError. vm_compute. reflexivity.
  - apply (plan_processed_with_blank_result (PNum 1) silent_env
             (PNum 10, PNum 20, PNum 100)); try reflexivity.
    left. repeat constructor.
Defined.

Ltac process_cases m env :=
  unfold process_flight_plan, update_machine_status;
  destruct (prepare env) eqn:?;
  [|destruct (write_plan env) eqn:?;
    [|destruct (Loader.extract_home_position (written_file env))
        as [[[? ?] ?]|?] eqn:?;
      [destruct (start_simulator env) eqn:?;
       [|let E := fresh "E" in
         destruct (monitor_cases env (stdout env) Blank)
           as [[E ?]|[? [[? E]|[E|[[? E]|[? E]]]]]]; rewrite E;
         [destruct (read_csv env) eqn:?; [|destruct (remove_files env) eqn:?]
         | | |
         |destruct (read_csv env) eqn:?; [|destruct (remove_files env) eqn:?]]]
      |]]];
  destruct (truthy m) eqn:?; cbn [fst snd app].

Ltac close_trace :=
  repeat split; intros;
  repeat match goal with
         | H : In _ (_ :: _) |- _ => destruct H as [H|H]
         | H : In _ [] |- _ => destruct H
         | H : ActMachineStatus _ = ActMachineStatus _ |- _ =>
             inversion H; subst; clear H
         | H : ActStartSimulator _ _ _ = ActStartSimulator _ _ _ |- _ =>
             inversion H; subst; clear H
         | H : exists _, _ |- _ => destruct H
         | H : _ /\ _ |- _ => destruct H
         end;
  try discriminate; try congruence; try reflexivity;
  try (left; reflexivity); try (right; reflexivity).

(** X22. The machine status is written only when a machine id is
    known, and only as [Error] or [Disponible]. [Disponible] is written
    only at the very end of a plan that was marked [procesado] and whose
    files were removed; [Error] only for a plan that was not marked. *)
Theorem machine_status_updates (machine_id : pyval) (env : plan_env) :
  (forall status,
     In (ActMachineStatus status) (snd (process_flight_plan machine_id env)) ->
     truthy machine_id = true /\
     (status = "Error" \/ status = "Disponible")) /\
  (In (ActMachineStatus "Disponible")
      (snd (process_flight_plan machine_id env)) ->
   fst (process_flight_plan machine_id env) = Done tt /\
   remove_files env = None /\
   exists csv, In (ActPlanStatus "procesado" csv)
                  (snd (process_flight_plan machine_id env))) /\
  (In (ActMachineStatus "Error")
      (snd (process_flight_plan machine_id env)) ->
   fst (process_flight_plan machine_id env) = Done tt /\
   forall status csv,
     ~ In (ActPlanStatus status csv)
          (snd (process_flight_plan machine_id env))).
Proof.
  process_cases machine_id env; close_trace;
    try (intros Hin; close_trace; fail);
    try (eexists; cbn; do 4 right; left; reflexivity);
    try (eexists; cbn; do 6 right; left; reflexivity).
Qed.

Lemma machine_status_updates_witness :
  exists csv,
    In (ActPlanStatus "procesado" csv)
       (snd (process_flight_plan (PNum 1) silent_env)).
Proof.
  apply (proj1 (proj2 (machine_status_updates (PNum 1) silent_env))).
  vm_compute. do 6 right. left. reflexivity.
Defined.

(** X23. In one turn of [monitor_flight_plan] the plans are processed
    in order; the first plan whose processing raises ends the turn: the
    plans after it are not touched, and the loop sleeps 5 seconds. *)
Theorem failing_plan_ends_the_turn
    (machine_id : pyval) (pre rest : list plan_env) (plan : plan_env)
    (e : exn) (t : list action)
    (Hpre : Forall (fun p => fst (process_flight_plan machine_id p) = Done tt)
                   pre)
    (Hplan : process_flight_plan machine_id plan = (Throws e, t)) :
  process_plans machine_id (pre ++ plan :: rest)
  = (Throws e,
     concat (map (fun p => snd (process_flight_plan machine_id p)) pre) ++ t) /\
  poll_once machine_id (Ok (pre ++ plan :: rest))
  = (Done tt,
     (concat (map (fun p => snd (process_flight_plan machine_id p)) pre) ++ t)
     ++ [ActSleep 5]).
Proof.
  assert (E : process_plans machine_id (pre ++ plan :: rest)
              = (Throws e,
                 concat (map (fun p => snd (process_flight_plan machine_id p))
                             pre) ++ t)).
  { induction Hpre as [|p pre Hp _ IH]; cbn [app process_plans map concat].
    - rewrite Hplan. reflexivity.
    - destruct (process_flight_plan machine_id p) as [r tp]. cbn [fst snd] in *.
      subst r. rewrite IH, app_assoc. reflexivity. }
  split; [exact E|]. unfold poll_once. rewrite E. reflexivity.
Qed.

Lemma failing_plan_ends_the_turn_witness :
  fst (process_plans (PNum 1) [silent_env; homeless_env; smooth_env])
  = Throws ValueError.
Proof.
  assert (Hpre : Forall (fun p => fst (process_flight_plan (PNum 1) p) = Done tt)
                        [silent_env])
    by (constructor; [reflexivity|constructor]).
  change [silent_env; homeless_env; smooth_env]
    with ([silent_env] ++ homeless_env :: [smooth_env]).
  rewrite (proj1 (failing_plan_ends_the_turn (PNum 1) [silent_env] [smooth_env]
                    homeless_env ValueError [ActPrepare; ActWritePlan]
                    Hpre eq_refl)).
  reflexivity.
Defined.

(** X24. The simulator is started only after the plan file was written
    and with the home position extracted from it; the mission script is
    launched only after the simulator was started and printed a line
    with the ready message, and at most once per plan. *)
Theorem simulator_started_at_extracted_home
    (machine_id : pyval) (env : plan_env) :
  (forall lat lon alt,
     In (ActStartSimulator lat lon alt)
        (snd (process_flight_plan machine_id env)) ->
     prepare env = None /\ write_plan env = None /\
     Loader.extract_home_position (written_file env) = Ok (lat, lon, alt)) /\
  (In ActLaunchScript (snd (process_flight_plan machine_id env)) ->
   start_simulator env = None /\
   exists line, In line (stdout env) /\ ready line = true) /\
  (launches (snd (process_flight_plan machine_id env)) <= 1)%nat.
Proof.
  process_cases machine_id env; close_trace;
    try (cbn; lia);
    try (eexists; split; [eassumption|assumption]).
Qed.

Lemma simulator_started_at_extracted_home_witness :
  Loader.extract_home_position (written_file grounded_env)
  = Ok (PNum 10, PNum 20, PNum 100).
Proof.
  apply (proj1 (simulator_started_at_extracted_home (PNum 1) grounded_env)).
  vm_compute. do 2 right. left. reflexivity.
Defined.

End OrchestratorProperties.
